(** * mocha-trx-reporter: the TRX reporter of [src/lib/trx.js]

    A shallow embedding of the reporter's event handlers and of
    [getFilename], with the JavaScript primitives they call written out
    (string search and replacement, truthiness, [Date.prototype.toISOString],
    hexadecimal rendering of a byte buffer).

    Conventions.
    - A JavaScript string is a [string]; positions count characters.
    - Objects that are shared and mutated (tests, hooks) live in a store
      keyed by object identity; the accumulation [Set] is the list of
      identities in insertion order.
    - Calls that reach outside the process (file system, standard output,
      [console.warn]) and the single call of [run.toXml()] are recorded in a
      log, oldest first.  Whether a file-system call throws is decided by the
      environment, given the history so far. *)

From Stdlib Require Import ZArith Ascii String List Lia Bool.
From stdpp Require Import base option list gmap strings.

Local Open Scope Z_scope.

(* String concatenation unfolds on a constructor. *)
#[local] Arguments String.append !s1 s2 : simpl nomatch.

(** ** JavaScript values and truthiness *)

(** The primitive values a reporter option can hold. *)
Inductive JsVal : Type :=
| VUndefined
| VNull
| VBool (b : bool)
| VNum (n : Z)
| VStr (s : string).

(** [ToBoolean]. *)
Definition truthy (v : JsVal) : bool :=
  match v with
  | VUndefined | VNull => false
  | VBool b => b
  | VNum n => negb (n =? 0)
  | VStr s => negb (String.eqb s "")
  end.

(** [a || b]. *)
Definition js_or (a b : JsVal) : JsVal := if truthy a then a else b.

(** [v === true]. *)
Definition strict_true (v : JsVal) : bool :=
  match v with VBool true => true | _ => false end.

(** Truthiness of a property that is either absent or a string. *)
Definition truthy_str (o : option string) : bool :=
  match o with
  | Some s => negb (String.eqb s "")
  | None => false
  end.

(** [a || b] where [a] is an optional string and [b] a string. *)
Definition or_str (a : option string) (b : string) : string :=
  match a with
  | Some s => if String.eqb s "" then b else s
  | None => b
  end.

(** How a handler finishes: normally with a value, or by throwing. *)
Inductive Completion (A : Type) : Type :=
| Normal (a : A)
| Throw (e : string).
Arguments Normal {A} a.
Arguments Throw {A} e.

(** ** Strings *)

(** The double quote, as a string; an abbreviation for the literal, which a
    string of this file cannot hold. *)
Abbreviation DQ := (String (ascii_of_nat 34) EmptyString).

(** [strip_prefix p s] is [Some r] when [s = p ++ r]. *)
Fixpoint strip_prefix (p s : string) : option string :=
  match p with
  | EmptyString => Some s
  | String c p' =>
      match s with
      | EmptyString => None
      | String d s' => if Ascii.eqb c d then strip_prefix p' s' else None
      end
  end.

(** Position of the first occurrence of [pat] in [s]. *)
Fixpoint find_first (pat s : string) : option nat :=
  match strip_prefix pat s with
  | Some _ => Some O
  | None =>
      match s with
      | EmptyString => None
      | String _ s' => option_map S (find_first pat s')
      end
  end.

(** [s.indexOf(pat)]. *)
Definition indexOf (s pat : string) : Z :=
  match find_first pat s with
  | Some i => Z.of_nat i
  | None => -1
  end.

(** [s.replace(pat, rep)] for a string pattern: the leftmost occurrence only.
    The replacement texts of this program (a run of hexadecimal digits, the
    empty string, a blank) contain no [$], so no replacement pattern of
    [GetSubstitution] applies and [rep] is inserted as it is. *)
Fixpoint replace (pat rep s : string) : string :=
  match strip_prefix pat s with
  | Some rest => rep +:+ rest
  | None =>
      match s with
      | EmptyString => EmptyString
      | String c s' => String c (replace pat rep s')
      end
  end.

(** [s.substring(b, e)]: both bounds clamped to [0, length], swapped when
    out of order. *)
Definition substring (b e : Z) (s : string) : string :=
  let len := Z.of_nat (String.length s) in
  let clamp x := Z.min (Z.max x 0) len in
  let b' := clamp b in
  let e' := clamp e in
  let lo := Z.min b' e' in
  let hi := Z.max b' e' in
  String.substring (Z.to_nat lo) (Z.to_nat (hi - lo)) s.

(** [s.split(c)] for a one-character separator. *)
Fixpoint split (c : ascii) (s : string) : list string :=
  match s with
  | EmptyString => [EmptyString]
  | String x s' =>
      if Ascii.eqb x c then EmptyString :: split c s'
      else match split c s' with
           | h :: t => String x h :: t
           | [] => [String x EmptyString]
           end
  end.

(** [arr.pop()] on an array of strings, as a value ([undefined] on the empty
    array, which [split] never returns). *)
Definition pop (l : list string) : option string := last l.

(** Decimal rendering of a non-negative integer, as [String(n)] gives it. *)
Definition digit (n : nat) : ascii := ascii_of_nat (48 + n mod 10).

Fixpoint decimal_aux (fuel n : nat) (acc : string) : string :=
  match fuel with
  | O => acc
  | S fuel' =>
      let acc' := String (digit n) acc in
      if Nat.ltb n 10 then acc' else decimal_aux fuel' (n / 10)%nat acc'
  end.

Definition decimal (n : nat) : string := decimal_aux (S n) n EmptyString.

(** [String(n).padStart(w, "0")]. *)
Definition pad (w n : nat) : string :=
  let d := decimal n in
  String.concat "" (repeat "0"%string (w - String.length d)) +:+ d.

(** ** [crypto.randomBytes] and [Buffer.prototype.toString('hex')] *)

Definition hex_digit (n : N) : ascii :=
  match n with
  | 0%N => "0" | 1%N => "1" | 2%N => "2" | 3%N => "3"
  | 4%N => "4" | 5%N => "5" | 6%N => "6" | 7%N => "7"
  | 8%N => "8" | 9%N => "9" | 10%N => "a" | 11%N => "b"
  | 12%N => "c" | 13%N => "d" | 14%N => "e" | _ => "f"
  end%char.

Fixpoint toString_hex (buf : list Byte.byte) : string :=
  match buf with
  | [] => EmptyString
  | b :: rest =>
      let n := Byte.to_N b in
      String (hex_digit (n / 16)) (String (hex_digit (n mod 16)) (toString_hex rest))
  end.

Definition is_lower_hex (c : ascii) : bool :=
  let n := nat_of_ascii c in
  ((48 <=? n)%nat && (n <=? 57)%nat) || ((97 <=? n)%nat && (n <=? 102)%nat).

Fixpoint string_forall (p : ascii -> bool) (s : string) : bool :=
  match s with
  | EmptyString => true
  | String c s' => p c && string_forall p s'
  end.

(** ** [Date] *)

(** A point in time by its UTC calendar fields, as [getUTCFullYear],
    [getUTCMonth() + 1], [getUTCDate], ... report them. *)
Record Date : Type := mkDate {
  year : Z;
  month : nat;
  day : nat;
  hours : nat;
  minutes : nat;
  seconds : nat;
  milliseconds : nat
}.

(** The fields of a date that exists: a month of the year, a day of the
    month, a time of the day. *)
Definition valid_date (d : Date) : Prop :=
  (1 <= month d <= 12)%nat /\ (1 <= day d <= 31)%nat /\
  (hours d < 24)%nat /\ (minutes d < 60)%nat /\ (seconds d < 60)%nat /\
  (milliseconds d < 1000)%nat.

(** [Date.prototype.toISOString]: [YYYY-MM-DDTHH:mm:ss.sssZ], the year
    written with a sign and six digits outside 0..9999. *)
Definition iso_year (y : Z) : string :=
  if (0 <=? y) && (y <=? 9999) then pad 4 (Z.to_nat y)
  else (if y <? 0 then "-" else "+") +:+ pad 6 (Z.abs_nat y).

Definition toISOString (d : Date) : string :=
  iso_year (year d) +:+ "-" +:+ pad 2 (month d) +:+ "-" +:+ pad 2 (day d) +:+
  "T" +:+ pad 2 (hours d) +:+ ":" +:+ pad 2 (minutes d) +:+ ":" +:+
  pad 2 (seconds d) +:+ "." +:+ pad 3 (milliseconds d) +:+ "Z".

(** ** The objects of the runner *)

(** An error object: its message and its stack trace. *)
Record Err : Type := mkErr {
  message : string;
  stack : option string
}.

(** A runnable of the test runner, a test or a hook.  [isPending] is what
    the method of that name answers; [parent] is the identity of the suite
    the runnable belongs to. *)
Record Runnable : Type := mkRunnable {
  type : string;
  title : string;
  parent : nat;
  state : option string;
  isPending : bool;
  err : option Err;
  start : option Date;
  end_ : option Date;
  attachments : option (list string)
}.

(** A suite as the reporter sees it: its identity, what [fullTitle()]
    answers and the tests [eachTest] visits, in the order of the visit. *)
Record Suite : Type := mkSuite {
  suite_id : nat;
  fullTitle : string;
  eachTest : list nat
}.

Definition set_start (d : Date) (r : Runnable) : Runnable :=
  mkRunnable (type r) (title r) (parent r) (state r) (isPending r) (err r)
    (Some d) (end_ r) (attachments r).

Definition set_end (d : Date) (r : Runnable) : Runnable :=
  mkRunnable (type r) (title r) (parent r) (state r) (isPending r) (err r)
    (start r) (Some d) (attachments r).

Definition set_err (e : Err) (r : Runnable) : Runnable :=
  mkRunnable (type r) (title r) (parent r) (state r) (isPending r) (Some e)
    (start r) (end_ r) (attachments r).

Definition set_state (s : string) (r : Runnable) : Runnable :=
  mkRunnable (type r) (title r) (parent r) (Some s) (isPending r) (err r)
    (start r) (end_ r) (attachments r).

(** ** The state of one reporter *)

(** [objects] is the store of the runnables the runner handed over, [tests]
    the accumulation [Set] in insertion order, [failedHook] the marker. *)
Record Reporter : Type := mkReporter {
  objects : gmap nat Runnable;
  tests : list nat;
  failedHook : option nat
}.

(** [Set.prototype.add]: no effect on a member, appended otherwise. *)
Definition set_add (x : nat) (s : list nat) : list nat :=
  if decide (x ∈ s) then s else s ++ [x].

(** [runner.on('test', ...)]. *)
Definition on_test (now : Date) (test : nat) (st : Reporter) : Reporter :=
  mkReporter (alter (set_start now) test (objects st)) (tests st) (failedHook st).

(** [runner.on('test end', ...)]. *)
Definition on_test_end (now : Date) (test : nat) (st : Reporter) : Reporter :=
  mkReporter (alter (set_end now) test (objects st)) (set_add test (tests st))
    (failedHook st).

(** [runner.on('fail', ...)]. *)
Definition on_fail (failed : nat) (st : Reporter) : Reporter :=
  match objects st !! failed with
  | Some r =>
      if String.eqb (type r) "hook"
      then mkReporter (objects st) (tests st) (Some failed)
      else st
  | None => st
  end.

(** The text of the synthetic error. *)
Definition not_executed_message (hook_title suite_title : string) : string :=
  "Not executed due to " +:+ hook_title +:+ " on " +:+ DQ +:+ suite_title +:+ DQ.

(** The callback handed to [suite.eachTest] in the ['suite end'] handler,
    run on the test [test].  The hook is read from the store at every call,
    as [failedHook.err.stack] is. *)
Definition mark_not_executed (hook : nat) (suite : Suite) (test : nat)
    (st : Reporter) : Completion Reporter :=
  match objects st !! test with
  | None => Normal st
  | Some t =>
      if isPending t || negb (truthy_str (state t)) then
        match objects st !! hook with
        | None => Throw "TypeError: failedHook is not an object"
        | Some h =>
            match err h with
            | None => Throw "TypeError: Cannot read properties of undefined (reading 'stack')"
            | Some e =>
                let t1 :=
                  set_err (mkErr (not_executed_message (title h) (fullTitle suite))
                                 (stack e)) t in
                let t2 :=
                  if negb (truthy_str (state t1)) then set_state "failed" t1 else t1 in
                Normal (mkReporter (<[test := t2]> (objects st))
                                   (set_add test (tests st)) (failedHook st))
            end
        end
      else Normal st
  end.

(** [suite.eachTest(callback)]: the callback on each test in turn; a throw
    ends the visit. *)
Fixpoint each_test (hook : nat) (suite : Suite) (ts : list nat)
    (st : Reporter) : Completion Reporter :=
  match ts with
  | [] => Normal st
  | t :: ts' =>
      match mark_not_executed hook suite t st with
      | Normal st' => each_test hook suite ts' st'
      | Throw e => Throw e
      end
  end.

(** [runner.on('suite end', ...)].  Inside the guard [failedHook.parent] and
    [suite] are one object, so [failedHook.parent.fullTitle()] is the
    suite's. *)
Definition on_suite_end (suite : Suite) (st : Reporter) : Completion Reporter :=
  match failedHook st with
  | None => Normal st
  | Some hook =>
      match objects st !! hook with
      | None => Normal st
      | Some h =>
          if Nat.eqb (parent h) (suite_id suite) then
            match each_test hook suite (eachTest suite) st with
            | Normal st' => Normal (mkReporter (objects st') (tests st') None)
            | Throw e => Throw e
            end
          else Normal st
      end
  end.

(** [[...tests.values()]]: the accumulated tests, in insertion order. *)
Definition tests_values (st : Reporter) : list Runnable :=
  omap (fun i => objects st !! i) (tests st).

(** ** Options, result entries and the report document *)

(** [options.reporterOptions]; an absent property is [VUndefined]. *)
Record ReporterOptions : Type := mkReporterOptions {
  output : JsVal;
  excludePending : JsVal;
  warnExcludedPending : JsVal
}.

(** The empty object [{}]. *)
Definition no_reporterOptions : ReporterOptions :=
  mkReporterOptions VUndefined VUndefined VUndefined.

Record Options : Type := mkOptions {
  reporterOptions : option ReporterOptions
}.

(** [self.stats] as far as the handler reads it. *)
Record Stats : Type := mkStats {
  stats_start : option Date;
  stats_end : option Date
}.

(** An entry of [resultFiles]. *)
Record ResultFile : Type := mkResultFile {
  path : string
}.

(** Modelled from the spec: [./test-to-trx] is not among the sources.  The
    Result Entry it builds carries identity info, outcome, duration and
    error text; [executionId], [relativeResultsDirectory] and [resultFiles]
    are the properties [trx.js] reads and writes. *)
Record TrxResult : Type := mkTrxResult {
  testName : string;
  outcome : string;
  duration : string;
  errorMessage : option string;
  executionId : option string;
  relativeResultsDirectory : option string;
  resultFiles : option (list ResultFile)
}.

Definition set_executionId (i : string) (r : TrxResult) : TrxResult :=
  mkTrxResult (testName r) (outcome r) (duration r) (errorMessage r) (Some i)
    (relativeResultsDirectory r) (resultFiles r).

Definition set_relativeResultsDirectory (d : string) (r : TrxResult) : TrxResult :=
  mkTrxResult (testName r) (outcome r) (duration r) (errorMessage r)
    (executionId r) (Some d) (resultFiles r).

Definition set_resultFiles (fs : list ResultFile) (r : TrxResult) : TrxResult :=
  mkTrxResult (testName r) (outcome r) (duration r) (errorMessage r)
    (executionId r) (relativeResultsDirectory r) (Some fs).

Record Times : Type := mkTimes {
  creation : string;
  queuing : string;
  times_start : string;
  finish : string
}.

(** The [TestRun] of [node-trx]: what the constructor is given and the
    results added so far, in the order of [addResult]. *)
Record TestRun : Type := mkTestRun {
  name : string;
  runUser : string;
  settings_name : string;
  times : Times;
  results : list TrxResult
}.

Definition addResult (r : TrxResult) (run : TestRun) : TestRun :=
  mkTestRun (name run) (runUser run) (settings_name run) (times run)
    (results run ++ [r]).

(** ** What leaves the process *)

Inductive Effect : Type :=
| StdoutWrite (s : string)
| ConsoleWarn (s : string)
| MkdirSync (p : string) (recursive : bool)
| CopyFileSync (src dest : string)
| WriteFileSync (file data encoding : string)
| ToXml (xml : string).

Definition is_fs (e : Effect) : bool :=
  match e with
  | MkdirSync _ _ | CopyFileSync _ _ | WriteFileSync _ _ _ => true
  | _ => false
  end.

Definition is_warning (e : Effect) : bool :=
  match e with ConsoleWarn _ => true | _ => false end.

Definition is_toXml (e : Effect) : bool :=
  match e with ToXml _ => true | _ => false end.

(** The local variables of the ['end'] handler that change while it runs,
    with the log and the number of identifiers drawn so far. *)
Record RunState : Type := mkRunState {
  run : TestRun;
  excludedPendingCount : nat;
  log : list Effect;
  uuids : nat
}.

(** Carriage return and line feed; an abbreviation for the literal. *)
Abbreviation CRLF := (String (ascii_of_nat 13) (String (ascii_of_nat 10) EmptyString)).

(** The line written when [fs.mkdirSync] throws [err] on [attachmentPath]. *)
Definition mkdir_error (attachmentPath err : string) : string :=
  "Error creating directory for attachments " +:+ DQ +:+ attachmentPath +:+ DQ +:+
  ": " +:+ err +:+ CRLF.

(** The line written when [fs.copyFileSync] throws [err] copying [a] to
    [target]. *)
Definition copy_error (a target err : string) : string :=
  "Error copying attachment from " +:+ DQ +:+ a +:+ DQ +:+ " to " +:+ DQ +:+ target +:+
  DQ +:+ ": " +:+ DQ +:+ err +:+ DQ +:+ CRLF.

(** ** Sequencing with a state and with throws *)

Definition M (A : Type) : Type := RunState -> Completion A * RunState.

Definition ret {A : Type} (a : A) : M A := fun s => (Normal a, s).

Definition throw {A : Type} (e : string) : M A := fun s => (Throw e, s).

Definition bind {A B : Type} (m : M A) (k : A -> M B) : M B :=
  fun s =>
    match m s with
    | (Normal a, s') => k a s'
    | (Throw e, s') => (Throw e, s')
    end.

(** [try { m } catch (err) { h err }]. *)
Definition try_catch {A : Type} (m : M A) (h : string -> M A) : M A :=
  fun s =>
    match m s with
    | (Normal a, s') => (Normal a, s')
    | (Throw e, s') => h e s'
    end.

Notation "x <- m ;; k" := (bind m (fun x => k))
  (at level 100, m at next level, right associativity).
Notation "m ;;; k" := (bind m (fun _ => k))
  (at level 100, right associativity).

Definition record (e : Effect) (s : RunState) : RunState :=
  mkRunState (run s) (excludedPendingCount s) (log s ++ [e]) (uuids s).

(** A call that cannot fail. *)
Definition emit (e : Effect) : M unit := fun s => (Normal tt, record e s).

(** [arr.map(f)] for a callback with effects. *)
Fixpoint map_M {A B : Type} (f : A -> M B) (l : list A) : M (list B) :=
  match l with
  | [] => ret []
  | a :: l' => b <- f a ;; bs <- map_M f l' ;; ret (b :: bs)
  end.

(** [arr.forEach(f)] for a callback with effects. *)
Fixpoint forEach {A : Type} (f : A -> M unit) (l : list A) : M unit :=
  match l with
  | [] => ret tt
  | a :: l' => f a ;;; forEach f l'
  end.

(** ** The ['end'] handler *)

(** What the handler is given from outside.  The collaborators:
    [testToTrx] is [./test-to-trx], [toXml] the serializer of [node-trx],
    [path_join], [path_dirname] and [path_sep] the [path] module of the
    platform.  The process: [os.hostname()], [os.userInfo().username],
    [process.cwd()], [process.env.MOCHA_REPORTER_FILE], the bytes
    [crypto.randomBytes] delivers, the identifiers [uuid.v4()] delivers, and
    the file system: [fs_throws history call] is the error a call throws
    after that history, if it throws. *)
Record Env : Type := mkEnv {
  testToTrx : Runnable -> string -> string -> ReporterOptions -> TrxResult;
  toXml : TestRun -> string;
  path_join : list string -> string;
  path_dirname : string -> string;
  path_sep : ascii;
  computerName : string;
  userName : string;
  cwd : string;
  MOCHA_REPORTER_FILE : option string;
  entropy : nat -> Byte.byte;
  uuid_v4 : nat -> string;
  fs_throws : list Effect -> Effect -> option string
}.

(** [crypto.randomBytes(n)]. *)
Definition randomBytes (env : Env) (n : nat) : list Byte.byte :=
  map (entropy env) (seq 0 n).

(** [getFilename].  A truthy [filePath] that is no string has no
    [indexOf]. *)
Definition getFilename (env : Env) (ro : ReporterOptions) : Completion JsVal :=
  let filePath :=
    js_or (output ro)
          (match MOCHA_REPORTER_FILE env with Some e => VStr e | None => VUndefined end) in
  if truthy filePath then
    match filePath with
    | VStr s =>
        if negb (indexOf s "[hash]" =? -1)
        then Normal (VStr (replace "[hash]" (toString_hex (randomBytes env 16)) s))
        else Normal filePath
    | _ => Throw "TypeError: filePath.indexOf is not a function"
    end
  else Normal filePath.

(** A file-system call: recorded, and thrown out of when the environment
    says so. *)
Definition fs_call (env : Env) (e : Effect) : M unit :=
  fun s =>
    match fs_throws env (log s) e with
    | None => (Normal tt, record e s)
    | Some err => (Throw err, record e s)
    end.

(** [uuid.v4()]. *)
Definition fresh_uuid (env : Env) : M string :=
  fun s =>
    (Normal (uuid_v4 env (uuids s)),
     mkRunState (run s) (excludedPendingCount s) (log s) (S (uuids s))).

(** [run.toXml()]. *)
Definition serialize (env : Env) : M string :=
  fun s => (Normal (toXml env (run s)), record (ToXml (toXml env (run s))) s).

(** [a.split(path.sep).pop()]. *)
Definition attachment_name (env : Env) (a : string) : option string :=
  pop (split (path_sep env) a).

(** The callback of [test.attachments.map]. *)
Definition copy_attachment (env : Env) (attachmentPath a : string) : M ResultFile :=
  match attachment_name env a with
  | None => throw "TypeError: The path argument must be of type string"
  | Some attachmentName =>
      let target := path_join env [attachmentPath; attachmentName] in
      emit (StdoutWrite ("Copy attachment " +:+ DQ +:+ attachmentName +:+ DQ +:+ " to " +:+
                         DQ +:+ attachmentPath +:+ DQ +:+ CRLF)) ;;;
      try_catch (fs_call env (CopyFileSync a target))
        (fun err => emit (StdoutWrite (copy_error a target err))) ;;;
      ret (mkResultFile attachmentName)
  end.

(** [path.join(cwd || '', filename.replace('.trx', ''), 'In', d)]. *)
Definition attachment_dir (env : Env) (filename d : string) : string :=
  path_join env [or_str (Some (cwd env)) ""; replace ".trx" "" filename; "In"%string; d].

(** The body of [if (filename && test.attachments?.length)]. *)
Definition relocate (env : Env) (filename : string) (atts : list string)
    (result : TrxResult) : M TrxResult :=
  i <- (match executionId result with
        | Some i => if String.eqb i "" then fresh_uuid env else ret i
        | None => fresh_uuid env
        end) ;;
  let result1 := set_executionId i result in
  let d := or_str (relativeResultsDirectory result1) i in
  let result2 := set_relativeResultsDirectory d result1 in
  let attachmentPath := attachment_dir env filename d in
  emit (StdoutWrite ("Creating directory for attachments " +:+ DQ +:+ attachmentPath +:+
                     DQ +:+ CRLF)) ;;;
  try_catch (fs_call env (MkdirSync attachmentPath true))
    (fun err => emit (StdoutWrite (mkdir_error attachmentPath err))) ;;;
  files <- map_M (copy_attachment env attachmentPath) atts ;;
  ret (set_resultFiles (default [] (resultFiles result2) ++ files) result2).

(** [test.attachments?.length], as a condition. *)
Definition has_attachments (test : Runnable) : bool :=
  match attachments test with
  | Some (_ :: _) => true
  | _ => false
  end.

(** [test.isPending() && reporterOptions.excludePending === true]. *)
Definition excluded (ro : ReporterOptions) (test : Runnable) : bool :=
  isPending test && strict_true (excludePending ro).

(** The callback of [testResults.tests.forEach]. *)
Definition each_result (env : Env) (ro : ReporterOptions) (filename : JsVal)
    (test : Runnable) : M unit :=
  if excluded ro test then
    fun s => (Normal tt,
              mkRunState (run s) (S (excludedPendingCount s)) (log s) (uuids s))
  else
    let result := testToTrx env test (computerName env) (cwd env) ro in
    result' <- (if truthy filename && has_attachments test then
                  match filename with
                  | VStr f => relocate env f (default [] (attachments test)) result
                  | _ => throw "TypeError: filename.replace is not a function"
                  end
                else ret result) ;;
    fun s => (Normal tt,
              mkRunState (addResult result' (run s)) (excludedPendingCount s)
                         (log s) (uuids s)).

(** The text of the warning. *)
Definition excluded_warning (n : nat) : string :=
  "##[warning]" +:+
  (if Nat.eqb n 1 then "Excluded 1 test because it is marked as Pending."%string
   else "Excluded " +:+ decimal n +:+ " tests because they are marked as Pending.").

(** [if (reporterOptions.warnExcludedPending === true && excludedPendingCount > 0)]. *)
Definition warn_excluded (ro : ReporterOptions) : M unit :=
  fun s =>
    if strict_true (warnExcludedPending ro) && Nat.ltb 0 (excludedPendingCount s)
    then emit (ConsoleWarn (excluded_warning (excludedPendingCount s))) s
    else (Normal tt, s).

(** [if (filename) { ... } else { ... }] at the end of the handler. *)
Definition write_output (env : Env) (filename : JsVal) : M unit :=
  if truthy filename then
    match filename with
    | VStr f =>
        fs_call env (MkdirSync (path_dirname env f) true) ;;;
        xml <- serialize env ;;
        fs_call env (WriteFileSync f xml "utf-8")
    | _ => throw "TypeError: The path argument must be of type string"
    end
  else
    xml <- serialize env ;;
    emit (StdoutWrite xml).

(** [testRunName]. *)
Definition testRunName (env : Env) (now : string) : string :=
  userName env +:+ "@" +:+ computerName env +:+ " " +:+
  replace "T" " " (substring 0 (indexOf now ".") now).

(** The report document the handler starts from. *)
Definition new_TestRun (env : Env) (now : string) (s e : Date) : TestRun :=
  mkTestRun (testRunName env now) (userName env) "default"
    (mkTimes now now (toISOString s) (toISOString e)) [].

(** [runner.on('end', ...)], on the accumulated tests.  [None] for the
    state when the handler throws before the report document exists. *)
Definition on_end (env : Env) (tests : list Runnable) (stats : Stats)
    (options : Options) (date : Date) (log0 : list Effect)
    : Completion unit * option RunState :=
  let now := toISOString date in
  match stats_start stats with
  | None => (Throw "TypeError: Cannot read properties of undefined (reading 'toISOString')", None)
  | Some s =>
      match stats_end stats with
      | None => (Throw "TypeError: Cannot read properties of undefined (reading 'toISOString')", None)
      | Some e =>
          let ro := default no_reporterOptions (reporterOptions options) in
          let s0 := mkRunState (new_TestRun env now s e) O log0 O in
          match getFilename env ro with
          | Throw err => (Throw err, Some s0)
          | Normal filename =>
              let '(c, s1) :=
                (forEach (each_result env ro filename) tests ;;;
                 warn_excluded ro ;;;
                 write_output env filename) s0 in
              (c, Some s1)
          end
      end
  end.

(** ** Auxiliary definitions for the statements *)

(** The condition [test.isPending() || !test.state]. *)
Definition unresolved (t : Runnable) : bool :=
  isPending t || negb (truthy_str (state t)).

(** What the handler makes of an unresolved test. *)
Definition not_executed (msg : string) (stk : option string) (t : Runnable) : Runnable :=
  mkRunnable (type t) (title t) (parent t)
    (if truthy_str (state t) then state t else Some "failed"%string)
    (isPending t) (Some (mkErr msg stk)) (start t) (end_ t) (attachments t).

Definition settle (msg : string) (stk : option string) (t : Runnable) : Runnable :=
  if unresolved t then not_executed msg stk t else t.

(** What the callback of the ['suite end'] handler reads of the hook: its
    title and the stack of its error. *)
Definition hook_as_read (hook : nat) (hook_title : string) (stk : option string)
    (st : Reporter) : Prop :=
  exists h e, objects st !! hook = Some h /\ title h = hook_title /\
              err h = Some e /\ stack e = stk.

(** No character of [s] is [c]. *)
Definition free_of (c : ascii) (s : string) : bool :=
  string_forall (fun x => negb (Ascii.eqb x c)) s.

(** The segments of [l], each followed by the separator [c]. *)
Fixpoint glue (c : ascii) (l : list string) : string :=
  match l with
  | [] => EmptyString
  | x :: l' => x +:+ String c (glue c l')
  end.

(** A decimal digit. *)
Definition is_digit (c : ascii) : bool :=
  (48 <=? nat_of_ascii c)%nat && (nat_of_ascii c <=? 57)%nat.

(** [s] is [w] decimal digits. *)
Definition digits (w : nat) (s : string) : bool :=
  Nat.eqb (String.length s) w && string_forall is_digit s.

(** ** The pure content of the ['end'] handler, for the statements *)

(** [getFilename] on the path it resolved: the substitution of the token. *)
Definition substitute_hash (env : Env) (p : string) : string :=
  if negb (indexOf p "[hash]" =? -1)
  then replace "[hash]" (toString_hex (randomBytes env 16)) p
  else p.

(** What [getFilename] can hand to the rest of the handler without a later
    type error: a string, or a falsy value. *)
Definition string_or_falsy (v : JsVal) : Prop :=
  truthy v = false \/ exists f, v = VStr f.

(** The handler gets as far as its loop: the statistics carry both dates and
    the [output] option is a string or falsy. *)
Definition reaches_loop (stats : Stats) (options : Options) : Prop :=
  is_Some (stats_start stats) /\ is_Some (stats_end stats) /\
  string_or_falsy (output (default no_reporterOptions (reporterOptions options))).

(** The base name [a.split(path.sep).pop()] always yields. *)
Definition base_name (env : Env) (a : string) : string :=
  default EmptyString (attachment_name env a).

(** The identifier [relocate] settles on when [k] identifiers were drawn
    before, and whether it draws one. *)
Definition draws (r : TrxResult) : nat :=
  if truthy_str (executionId r) then O else 1%nat.

Definition chosen_id (env : Env) (k : nat) (r : TrxResult) : string :=
  match executionId r with
  | Some i => if String.eqb i "" then uuid_v4 env k else i
  | None => uuid_v4 env k
  end.

Definition chosen_dir (env : Env) (k : nat) (r : TrxResult) : string :=
  or_str (relativeResultsDirectory r) (chosen_id env k r).

(** The entry [relocate] returns. *)
Definition relocated (env : Env) (k : nat) (atts : list string) (r : TrxResult)
    : TrxResult :=
  mkTrxResult (testName r) (outcome r) (duration r) (errorMessage r)
    (Some (chosen_id env k r)) (Some (chosen_dir env k r))
    (Some (default [] (resultFiles r) ++
           map (fun a => mkResultFile (base_name env a)) atts)).

(** The file-system calls [relocate] makes, in their order. *)
Definition relocation_calls (env : Env) (filename d : string) (atts : list string)
    : list Effect :=
  MkdirSync (attachment_dir env filename d) true ::
  map (fun a => CopyFileSync a (path_join env [attachment_dir env filename d;
                                                base_name env a])) atts.

(** The entries the loop adds and the file-system calls it makes, when [k]
    identifiers were drawn before. *)
Fixpoint entries (env : Env) (ro : ReporterOptions) (filename : JsVal) (k : nat)
    (tests : list Runnable) : list TrxResult :=
  match tests with
  | [] => []
  | t :: ts =>
      if excluded ro t then entries env ro filename k ts
      else
        let r := testToTrx env t (computerName env) (cwd env) ro in
        if truthy filename && has_attachments t
        then relocated env k (default [] (attachments t)) r ::
             entries env ro filename (k + draws r) ts
        else r :: entries env ro filename k ts
  end.

(** The text of a file name that is a string. *)
Definition filename_text (filename : JsVal) : string :=
  match filename with VStr f => f | _ => EmptyString end.

Fixpoint loop_calls (env : Env) (ro : ReporterOptions) (filename : JsVal) (k : nat)
    (tests : list Runnable) : list Effect :=
  match tests with
  | [] => []
  | t :: ts =>
      if excluded ro t then loop_calls env ro filename k ts
      else
        let r := testToTrx env t (computerName env) (cwd env) ro in
        if truthy filename && has_attachments t
        then relocation_calls env (filename_text filename) (chosen_dir env k r)
               (default [] (attachments t)) ++
             loop_calls env ro filename (k + draws r) ts
        else loop_calls env ro filename k ts
  end.

(** The report document with more results added. *)
Definition with_results (rs : list TrxResult) (r : TestRun) : TestRun :=
  mkTestRun (name r) (runUser r) (settings_name r) (times r) (results r ++ rs).

(** The effects the loop over the tests can have. *)
Definition loop_effect (e : Effect) : bool :=
  match e with
  | StdoutWrite _ | MkdirSync _ _ | CopyFileSync _ _ => true
  | _ => false
  end.

(** [r] is the Result Entry of [test]: what [testToTrx] made of it, up to
    the three properties the relocation of attachments sets. *)
Definition entry_of (env : Env) (ro : ReporterOptions) (test : Runnable)
    (r : TrxResult) : Prop :=
  let r0 := testToTrx env test (computerName env) (cwd env) ro in
  testName r = testName r0 /\ outcome r = outcome r0 /\
  duration r = duration r0 /\ errorMessage r = errorMessage r0.

(** In the part [new] of a log that follows the history [h], every
    [mkdirSync] and [copyFileSync] that threw is followed at once by a line
    on standard output that reports it.  The line is written out here as it
    has to read: for a directory, its path in quotes and the error; for a
    copy, the attachment and the target in quotes and the error in quotes. *)
Fixpoint failures_logged (env : Env) (h new : list Effect) : Prop :=
  match new with
  | [] => True
  | e :: rest =>
      match e with
      | MkdirSync p _ =>
          forall err, fs_throws env h e = Some err ->
            exists rest',
              rest =
              StdoutWrite ("Error creating directory for attachments " +:+
                           DQ +:+ p +:+ DQ +:+ ": " +:+ err +:+ CRLF) :: rest'
      | CopyFileSync a t =>
          forall err, fs_throws env h e = Some err ->
            exists rest',
              rest =
              StdoutWrite ("Error copying attachment from " +:+ DQ +:+ a +:+ DQ +:+
                           " to " +:+ DQ +:+ t +:+ DQ +:+ ": " +:+
                           DQ +:+ err +:+ DQ +:+ CRLF) :: rest'
      | _ => True
      end /\ failures_logged env (h ++ [e]) rest
  end.

(** What the loop adds to a log after the history [h]: its file-system
    calls are [calls], nothing but those and lines on standard output, every
    failure reported. *)
Definition relocation_log (env : Env) (h new calls : list Effect) : Prop :=
  List.filter is_fs new = calls /\
  Forall (fun e => loop_effect e = true) new /\
  failures_logged env h new.

(** [filePath] as [getFilename] first sets it:
    [reporterOptions.output || process.env.MOCHA_REPORTER_FILE]. *)
Definition resolved_path (env : Env) (ro : ReporterOptions) : JsVal :=
  js_or (output ro)
        (match MOCHA_REPORTER_FILE env with Some e => VStr e | None => VUndefined end).

(** What the warning block adds to the log when [n] tests were excluded. *)
Definition warning_part (ro : ReporterOptions) (n : nat) : list Effect :=
  if strict_true (warnExcludedPending ro) && Nat.ltb 0 n
  then [ConsoleWarn (excluded_warning n)]
  else [].

(** How the output step ends and what it adds to the log, after the history
    [h] and for the report document [r]. *)
Definition output_part (env : Env) (filename : JsVal) (r : TestRun) (h : list Effect)
    : Completion unit * list Effect :=
  let xml := toXml env r in
  if truthy filename then
    let f := filename_text filename in
    let mk := MkdirSync (path_dirname env f) true in
    let wr := WriteFileSync f xml "utf-8" in
    match fs_throws env h mk with
    | Some err => (Throw err, [mk])
    | None =>
        (match fs_throws env (h ++ [mk; ToXml xml]) wr with
         | Some err => Throw err
         | None => Normal tt
         end, [mk; ToXml xml; wr])
    end
  else (Normal tt, [ToXml xml; StdoutWrite xml]).

(** Every path of a file-system call derives from the file name [F]. *)
Definition uses_path (env : Env) (F : string) (e : Effect) : Prop :=
  match e with
  | MkdirSync q _ => q = path_dirname env F \/ exists d, q = attachment_dir env F d
  | CopyFileSync _ dest => exists d n, dest = path_join env [attachment_dir env F d; n]
  | WriteFileSync file _ _ => file = F
  | _ => True
  end.

(** The same environment with another file system. *)
Definition with_fs (fs : list Effect -> Effect -> option string) (env : Env) : Env :=
  mkEnv (testToTrx env) (toXml env) (path_join env) (path_dirname env) (path_sep env)
    (computerName env) (userName env) (cwd env) (MOCHA_REPORTER_FILE env)
    (entropy env) (uuid_v4 env) fs.

(** A file system on which no call throws. *)
Definition never_throws : list Effect -> Effect -> option string := fun _ _ => None.

(** ** A platform and collaborators, for the examples *)

(** The POSIX flavour of [path]: segments between slashes, [.] and empty
    segments dropped, [..] taking back the segment before it. *)
Fixpoint normalize_segments (allowAboveRoot : bool) (segs res : list string)
    : list string :=
  match segs with
  | [] => rev res
  | seg :: rest =>
      if String.eqb seg "" || String.eqb seg "." then
        normalize_segments allowAboveRoot rest res
      else if String.eqb seg ".." then
        match res with
        | last :: res' =>
            if String.eqb last ".." then
              normalize_segments allowAboveRoot rest
                (if allowAboveRoot then seg :: res else res)
            else normalize_segments allowAboveRoot rest res'
        | [] =>
            normalize_segments allowAboveRoot rest
              (if allowAboveRoot then [seg] else [])
        end
      else normalize_segments allowAboveRoot rest (seg :: res)
  end.

Definition starts_with_slash (p : string) : bool :=
  match p with String c _ => Ascii.eqb c "/" | EmptyString => false end.

Definition ends_with_slash (p : string) : bool :=
  match last (list_ascii_of_string p) with
  | Some c => Ascii.eqb c "/"
  | None => false
  end.

Definition posix_normalize (p : string) : string :=
  if String.eqb p "" then "."%string
  else
    let absolute := starts_with_slash p in
    let trailing := ends_with_slash p in
    let body :=
      String.concat "/" (normalize_segments (negb absolute) (split "/" p) []) in
    if String.eqb body "" then
      (if absolute then "/" else if trailing then "./" else ".")%string
    else
      (if absolute then "/" else "") +:+ body +:+ (if trailing then "/" else "").

Definition posix_join (parts : list string) : string :=
  match List.filter (fun a => negb (String.eqb a "")) parts with
  | [] => "."%string
  | kept => posix_normalize (String.concat "/" kept)
  end.

(** [dirname]: scanning from the end, over the trailing slashes and the last
    segment, to the slash before it. *)
Fixpoint dirname_scan (rev_tail : list ascii) (matchedSlash : bool)
    : option (list ascii) :=
  match rev_tail with
  | [] => None
  | c :: rest =>
      if Ascii.eqb c "/" then
        (if matchedSlash then dirname_scan rest true else Some rest)
      else dirname_scan rest false
  end.

Definition posix_dirname (p : string) : string :=
  match list_ascii_of_string p with
  | [] => "."%string
  | c :: tl =>
      let hasRoot := Ascii.eqb c "/" in
      match dirname_scan (rev tl) true with
      | None => (if hasRoot then "/" else ".")%string
      | Some rest =>
          if hasRoot && Nat.eqb (List.length rest) 0 then "//"%string
          else string_of_list_ascii (c :: rev rest)
      end
  end.

(** A stand-in for [./test-to-trx]: the entry carries the title, the state as
    outcome and the message of the error. *)
Definition example_testToTrx (test : Runnable) (host dir : string)
    (ro : ReporterOptions) : TrxResult :=
  mkTrxResult (title test)
    (match state test with Some st => st | None => "notExecuted"%string end)
    "0" (message <$> err test) None None None.

(** A stand-in for the serializer: the run name and, for each result, its
    name and outcome. *)
Definition example_toXml (r : TestRun) : string :=
  name r +:+ ": " +:+
  String.concat ", " (map (fun e => testName e +:+ "=" +:+ outcome e) (results r)).

Definition example_env : Env :=
  mkEnv example_testToTrx example_toXml posix_join posix_dirname "/"
    "build-host" "ci" "/work" None
    (fun i => default Byte.x00 (Byte.of_nat (17 * i + 3)))
    (fun k => "uuid-" +:+ decimal k)
    never_throws.

(** The same platform with a file system that refuses every [mkdirSync]. *)
Definition refuses_mkdir (h : list Effect) (e : Effect) : option string :=
  match e with
  | MkdirSync _ _ => Some "Error: EACCES: permission denied"%string
  | _ => None
  end.

Definition example_env_readonly : Env := with_fs refuses_mkdir example_env.

(** The same platform with a file system that refuses every call. *)
Definition refuses_all (h : list Effect) (e : Effect) : option string :=
  if is_fs e then Some "Error: EROFS: read-only file system"%string else None.

Definition example_env_refusing : Env := with_fs refuses_all example_env.

Definition example_date : Date := mkDate 2026 11 3 7 0 5 42.

Definition example_stats : Stats := mkStats (Some example_date) (Some example_date).

(** A passed test with one attachment, and a pending test with one. *)
Definition example_A : Runnable :=
  mkRunnable "test" "A" 7 (Some "passed"%string) false None None None
    (Some ["/tmp/shots/a.png"%string]).

Definition example_P : Runnable :=
  mkRunnable "test" "P" 7 (Some "pending"%string) true None None None
    (Some ["/tmp/shots/p.png"%string]).

Definition example_B : Runnable :=
  mkRunnable "test" "B" 7 (Some "failed"%string) false
    (Some (mkErr "boom" None)) None None None.

Definition options_with (out excl warn : JsVal) : Options :=
  mkOptions (Some (mkReporterOptions out excl warn)).

(** The state the loop of the examples starts from. *)
Definition example_state : RunState :=
  mkRunState (new_TestRun example_env (toISOString example_date) example_date example_date)
    O [] O.

(** ** A small run, for the examples

    Suite X (identity 7) holds T1 (object 2, not run, no state), T2 (object 3,
    passed) and T3 (object 4, pending, state [pending] as the runner sets
    it); its [before each] hook (object 1) has failed. *)

Definition example_hook_err : Err :=
  mkErr "boom" (Some "Error: boom at Context.beforeEach"%string).

Definition example_hook : Runnable :=
  mkRunnable "hook" "before each hook" 7 (Some "failed"%string) false
    (Some example_hook_err) None None None.

Definition example_T1 : Runnable :=
  mkRunnable "test" "T1" 7 None false None None None None.

Definition example_T2 : Runnable :=
  mkRunnable "test" "T2" 7 (Some "passed"%string) false None None None None.

Definition example_T3 : Runnable :=
  mkRunnable "test" "T3" 7 (Some "pending"%string) true None None None None.

Definition example_suite : Suite := mkSuite 7 "Suite X" [2; 3; 4]%nat.

Definition example_reporter : Reporter :=
  mkReporter
    (<[1%nat := example_hook]> (<[2%nat := example_T1]> (<[3%nat := example_T2]>
       (<[4%nat := example_T3]> ∅))))
    [3; 4]%nat (Some 1%nat).

(** ** The reporter over a run of events *)

(** The events the runner emits before ['end'], with what each handler is
    given: the clock for ['test'] and ['test end'], the runnable, the
    suite. *)
Inductive Event : Type :=
| TestStart (now : Date) (test : nat)
| TestEnd (now : Date) (test : nat)
| Fail (failed : nat)
| SuiteEnd (suite : Suite).

(** The handler registered for an event. *)
Definition handle (ev : Event) (st : Reporter) : Completion Reporter :=
  match ev with
  | TestStart now test => Normal (on_test now test st)
  | TestEnd now test => Normal (on_test_end now test st)
  | Fail failed => Normal (on_fail failed st)
  | SuiteEnd suite => on_suite_end suite st
  end.

(** The events in their order; a handler that throws ends the run. *)
Fixpoint handle_all (evs : list Event) (st : Reporter) : Completion Reporter :=
  match evs with
  | [] => Normal st
  | ev :: evs' =>
      match handle ev st with
      | Normal st' => handle_all evs' st'
      | Throw e => Throw e
      end
  end.

(** The reporter as its constructor leaves it. *)
Definition new_reporter (objs : gmap nat Runnable) : Reporter :=
  mkReporter objs [] None.

(** What the reporter never writes of a runnable stays, and so does a state
    that is set. *)
Definition evolves (x y : Runnable) : Prop :=
  type y = type x /\ title y = title x /\ parent y = parent x /\
  isPending y = isPending x /\ attachments y = attachments x /\
  (truthy_str (state x) = true -> state y = state x).

(** The store holds the same objects, each evolved. *)
Definition store_evolves (st st' : Reporter) : Prop :=
  forall i,
    match objects st !! i, objects st' !! i with
    | Some x, Some y => evolves x y
    | None, None => True
    | _, _ => False
    end.

(** The marker, when set, is a hook of the store. *)
Definition marker_is_hook (st : Reporter) : Prop :=
  forall h, failedHook st = Some h ->
            exists x, objects st !! h = Some x /\ type x = "hook"%string.

(** [runner.on('end', ...)] on the reporter's own accumulation set. *)
Definition end_of_run (env : Env) (st : Reporter) (stats : Stats) (options : Options)
    (date : Date) (log0 : list Effect) : Completion unit * option RunState :=
  on_end env (tests_values st) stats options date log0.


(** A run of the examples: T1 starts and T2 ends, then the hook fails and
    the suite ends. *)
Definition example_events : list Event :=
  [TestStart example_date 2%nat; TestEnd example_date 3%nat;
   TestEnd example_date 4%nat; Fail 1%nat; SuiteEnd example_suite].

Definition example_objects : gmap nat Runnable :=
  <[1%nat := example_hook]> (<[2%nat := example_T1]> (<[3%nat := example_T2]>
    (<[4%nat := example_T3]> ∅))).



(** The platform of the examples with the environment variable set to the
    empty string. *)
Definition example_env_blank : Env :=
  mkEnv example_testToTrx example_toXml posix_join posix_dirname "/"
    "build-host" "ci" "/work" (Some EmptyString)
    (fun i => default Byte.x00 (Byte.of_nat (17 * i + 3)))
    (fun k => "uuid-" +:+ decimal k)
    never_throws.

(** The test gets a generated identifier: it is not excluded, its
    attachments are relocated and its entry has no identifier of its own. *)
Definition needs_id (env : Env) (ro : ReporterOptions) (filename : JsVal)
    (t : Runnable) : bool :=
  negb (excluded ro t) && (truthy filename && has_attachments t) &&
  negb (truthy_str (executionId (testToTrx env t (computerName env) (cwd env) ro))).

(** * Properties *)

(** ** Strings *)

Lemma append_nil_r (s : string) : s +:+ "" = s.
Proof. induction s as [|c s IH]; simpl; [reflexivity | now rewrite IH]. Qed.

Lemma append_assoc (a b c : string) : (a +:+ b) +:+ c = a +:+ b +:+ c.
Proof. induction a as [|x a IH]; simpl; [reflexivity | now rewrite IH]. Qed.

Lemma length_append (a b : string) :
  String.length (a +:+ b) = (String.length a + String.length b)%nat.
Proof. induction a as [|x a IH]; simpl; [reflexivity | now rewrite IH]. Qed.

Lemma strip_prefix_append (p r : string) : strip_prefix p (p +:+ r) = Some r.
Proof.
  induction p as [|c p IH]; simpl; [reflexivity |].
  now rewrite Ascii.eqb_refl.
Qed.

Lemma strip_prefix_Some (p s r : string) :
  strip_prefix p s = Some r -> s = p +:+ r.
Proof.
  revert s; induction p as [|c p IH]; intros s H; simpl in *.
  - now inversion H.
  - destruct s as [|d s]; [discriminate |].
    destruct (Ascii.eqb_spec c d) as [->|]; [| discriminate].
    now rewrite (IH _ H).
Qed.

Lemma find_first_eq (pat s : string) :
  find_first pat s =
  match strip_prefix pat s with
  | Some _ => Some O
  | None => match s with
            | EmptyString => None
            | String _ s' => option_map S (find_first pat s')
            end
  end.
Proof. destruct s; reflexivity. Qed.

Lemma replace_eq (pat rep s : string) :
  replace pat rep s =
  match strip_prefix pat s with
  | Some rest => rep +:+ rest
  | None => match s with
            | EmptyString => EmptyString
            | String c s' => String c (replace pat rep s')
            end
  end.
Proof. destruct s; reflexivity. Qed.

(** [replace] rewrites the occurrence [find_first] finds and nothing else. *)
Lemma find_first_replace (pat rep s : string) (i : nat) :
  find_first pat s = Some i ->
  exists a b, s = a +:+ pat +:+ b /\ String.length a = i /\
              replace pat rep s = a +:+ rep +:+ b.
Proof.
  revert i; induction s as [|c s IH]; intros i H;
    rewrite find_first_eq in H; rewrite replace_eq.
  - destruct (strip_prefix pat "") as [r|] eqn:E; [| discriminate].
    inversion H; subst. exists EmptyString, r. simpl.
    split; [now apply strip_prefix_Some | easy].
  - destruct (strip_prefix pat (String c s)) as [r|] eqn:E.
    + inversion H; subst. exists EmptyString, r. simpl.
      split; [now apply strip_prefix_Some | easy].
    + destruct (find_first pat s) as [j|] eqn:F; [| discriminate].
      simpl in H. inversion H; subst.
      destruct (IH j eq_refl) as (a & b & -> & <- & R).
      exists (String c a), b. simpl. now rewrite R.
Qed.

(** The occurrence [find_first] finds is the leftmost one. *)
Lemma find_first_least (pat s : string) (i : nat) :
  find_first pat s = Some i ->
  forall a b, s = a +:+ pat +:+ b -> (i <= String.length a)%nat.
Proof.
  revert i; induction s as [|c s IH]; intros i H a b Hs;
    rewrite find_first_eq in H.
  - destruct (strip_prefix pat "") eqn:E; [| discriminate].
    inversion H. lia.
  - destruct (strip_prefix pat (String c s)) eqn:E.
    + inversion H. lia.
    + destruct (find_first pat s) as [j|] eqn:F; [| discriminate].
      simpl in H. inversion H; subst.
      destruct a as [|x a]; simpl in Hs.
      * rewrite Hs, strip_prefix_append in E. discriminate.
      * inversion Hs; subst. simpl.
        specialize (IH j eq_refl a b eq_refl). lia.
Qed.

Lemma find_first_None (pat s : string) :
  find_first pat s = None ->
  (forall a b, s <> a +:+ pat +:+ b) /\ forall rep, replace pat rep s = s.
Proof.
  induction s as [|c s IH]; intros H; rewrite find_first_eq in H.
  - destruct (strip_prefix pat "") eqn:E; [discriminate |].
    split.
    + intros a b Hs. destruct a; simpl in Hs.
      * rewrite Hs, strip_prefix_append in E. discriminate.
      * discriminate.
    + intros rep. rewrite replace_eq, E. reflexivity.
  - destruct (strip_prefix pat (String c s)) eqn:E; [discriminate |].
    destruct (find_first pat s) eqn:F; [discriminate |].
    destruct (IH eq_refl) as [IH1 IH2].
    split.
    + intros a b Hs. destruct a as [|x a]; simpl in Hs.
      * rewrite Hs, strip_prefix_append in E. discriminate.
      * inversion Hs; subst. now apply (IH1 a b).
    + intros rep. rewrite replace_eq, E. now rewrite IH2.
Qed.

Lemma find_first_complete (pat a b : string) :
  exists i, find_first pat (a +:+ pat +:+ b) = Some i.
Proof.
  destruct (find_first pat (a +:+ pat +:+ b)) as [i|] eqn:F; [now exists i |].
  destruct (find_first_None _ _ F) as [H _]. now destruct (H a b).
Qed.

(** ** Hexadecimal rendering *)

Lemma hex_digit_lower (n : N) : is_lower_hex (hex_digit n) = true.
Proof.
  destruct n as [|p]; [reflexivity |].
  do 4 (destruct p as [p|p|]; try reflexivity).
Qed.

Lemma toString_hex_length (buf : list Byte.byte) :
  String.length (toString_hex buf) = (2 * List.length buf)%nat.
Proof. induction buf as [|b buf IH]; simpl; [reflexivity | rewrite IH; lia]. Qed.

Lemma toString_hex_lower (buf : list Byte.byte) :
  string_forall is_lower_hex (toString_hex buf) = true.
Proof.
  induction buf as [|b buf IH]; [reflexivity |].
  cbn [toString_hex string_forall].
  now rewrite !hex_digit_lower, IH.
Qed.

(** ** The ['suite end'] handler *)

Lemma settle_idempotent (msg : string) (stk : option string) (t : Runnable) :
  settle msg stk (settle msg stk t) = settle msg stk t.
Proof.
  destruct t as [ty ti pa st pe er sa en att].
  unfold settle, unresolved, not_executed; simpl.
  destruct pe, (truthy_str st) eqn:E; simpl; rewrite ?E; simpl; rewrite ?E; reflexivity.
Qed.

Lemma elem_of_set_add (x y : nat) (s : list nat) :
  x ∈ set_add y s <-> x ∈ s \/ x = y.
Proof.
  unfold set_add. destruct (decide (y ∈ s)) as [Hy|Hy].
  - split; [tauto | intros [H| ->]; assumption].
  - rewrite elem_of_app, list_elem_of_singleton. tauto.
Qed.

Lemma set_add_extends (y : nat) (s : list nat) : exists extra, set_add y s = s ++ extra.
Proof.
  unfold set_add. destruct (decide (y ∈ s)).
  - exists []. now rewrite app_nil_r.
  - now exists [y].
Qed.

Section SuiteEnd.

Variables (hook : nat) (suite : Suite) (hook_title : string) (stk : option string).

Let msg : string := not_executed_message hook_title (fullTitle suite).

Lemma mark_not_executed_spec (t : nat) (st : Reporter) :
  hook_as_read hook hook_title stk st ->
  exists st',
    mark_not_executed hook suite t st = Normal st' /\
    failedHook st' = failedHook st /\
    (forall u, objects st' !! u =
               if decide (u = t) then settle msg stk <$> objects st !! u
               else objects st !! u) /\
    (forall u, u ∈ tests st' <->
               u ∈ tests st \/
               (u = t /\ exists x, objects st !! t = Some x /\ unresolved x = true)) /\
    (exists extra, tests st' = tests st ++ extra).
Proof.
  intros (h & e & Hh & Ht & He & Hs).
  unfold mark_not_executed.
  destruct (objects st !! t) as [x|] eqn:Hx.
  - fold (unresolved x). destruct (unresolved x) eqn:Hu.
    + rewrite Hh, He. eexists; split; [reflexivity |]. simpl.
      split; [reflexivity |]. split; [| split].
      * intros u. destruct (decide (u = t)) as [->|Hne].
        -- rewrite lookup_insert_eq, Hx. simpl. unfold settle. rewrite Hu.
           f_equal. unfold not_executed, set_err, set_state, msg. simpl.
           rewrite Ht, Hs. now destruct (truthy_str (state x)).
        -- now rewrite lookup_insert_ne.
      * intros u. rewrite elem_of_set_add. split.
        -- intros [H| ->]; [now left | right; eauto].
        -- intros [H|[-> _]]; [now left | now right].
      * apply set_add_extends.
    + exists st. split; [reflexivity |]. split; [reflexivity |]. split; [| split].
      * intros u. destruct (decide (u = t)) as [->|Hne]; [| reflexivity].
        rewrite Hx. simpl. unfold settle. now rewrite Hu.
      * intros u. split; [now left |].
        intros [H|[-> (y & Hy & Hy')]]; [assumption | congruence].
      * exists []. now rewrite app_nil_r.
  - exists st. split; [reflexivity |]. split; [reflexivity |]. split; [| split].
    + intros u. destruct (decide (u = t)) as [->|Hne]; [| reflexivity].
      now rewrite Hx.
    + intros u. split; [now left |].
      intros [H|[-> (y & Hy & _)]]; [assumption | congruence].
    + exists []. now rewrite app_nil_r.
Qed.

Lemma hook_as_read_settled (st st' : Reporter) (t : nat) :
  hook_as_read hook hook_title stk st ->
  (forall u, objects st' !! u =
             if decide (u = t) then settle msg stk <$> objects st !! u
             else objects st !! u) ->
  hook_as_read hook hook_title stk st'.
Proof.
  intros (h & e & Hh & Ht & He & Hs) H.
  specialize (H hook). rewrite Hh in H.
  destruct (decide (hook = t)); [| now exists h, e].
  simpl in H. unfold settle in H. destruct (unresolved h).
  - exists (not_executed msg stk h), (mkErr msg stk). now simpl.
  - now exists h, e.
Qed.

Lemma each_test_spec (ts : list nat) (st : Reporter) :
  hook_as_read hook hook_title stk st ->
  exists st',
    each_test hook suite ts st = Normal st' /\
    failedHook st' = failedHook st /\
    (forall u, objects st' !! u =
               if decide (u ∈ ts) then settle msg stk <$> objects st !! u
               else objects st !! u) /\
    (forall u, u ∈ tests st' <->
               u ∈ tests st \/
               (u ∈ ts /\ exists x, objects st !! u = Some x /\ unresolved x = true)) /\
    (exists extra, tests st' = tests st ++ extra).
Proof.
  revert st; induction ts as [|t ts IH]; intros st Hr.
  - exists st. split; [reflexivity |]. split; [reflexivity |]. split; [| split].
    + intros u. destruct (decide (u ∈ [])) as [H|]; [| reflexivity].
      now apply elem_of_nil in H.
    + intros u. split; [now left |].
      intros [H|[H _]]; [assumption | now apply elem_of_nil in H].
    + exists []. now rewrite app_nil_r.
  - destruct (mark_not_executed_spec t st Hr) as (st1 & E1 & F1 & O1 & T1 & X1).
    assert (Hr1 : hook_as_read hook hook_title stk st1) by (eapply hook_as_read_settled; eauto).
    destruct (IH st1 Hr1) as (st2 & E2 & F2 & O2 & T2 & X2).
    exists st2. simpl. rewrite E1. split; [assumption |].
    split; [congruence |]. split; [| split].
    + intros u. rewrite O2, !O1.
      destruct (decide (u ∈ ts)) as [Hin|Hin];
        destruct (decide (u = t)) as [->|Hne].
      * rewrite decide_True by (apply elem_of_cons; now left).
        destruct (objects st !! t); simpl; [| reflexivity].
        now rewrite settle_idempotent.
      * rewrite decide_True by (apply elem_of_cons; now right).
        reflexivity.
      * rewrite decide_True by (apply elem_of_cons; now left). reflexivity.
      * rewrite decide_False; [reflexivity |].
        rewrite elem_of_cons. tauto.
    + intros u. rewrite T2, T1, elem_of_cons, !O1. split.
      * intros [[H|[-> H]]|[Hin (x & Hx & Hu)]].
        -- now left.
        -- right. split; [now left | assumption].
        -- destruct (decide (u = t)) as [->|Hne].
           ++ destruct (objects st !! t) as [y|] eqn:Hy; [| discriminate].
              simpl in Hx. inversion Hx; subst.
              destruct (unresolved y) eqn:Hy'.
              ** right. split; [now left | eauto].
              ** unfold settle in Hu. rewrite Hy' in Hu. congruence.
           ++ right. split; [now right | eauto].
      * intros [H|[[->|Hin] (x & Hx & Hu)]].
        -- left. now left.
        -- left. right. eauto.
        -- destruct (decide (u = t)) as [->|Hne].
           ++ left. right. eauto.
           ++ right. split; [assumption |]. exists x. now rewrite Hx.
    + destruct X1 as [a Ha], X2 as [b Hb]. exists (a ++ b).
      rewrite Hb, Ha. now rewrite <- app_assoc.
Qed.

End SuiteEnd.

(** C1, as the claim states it, fails: a pending test that already carries a
    state (the runner sets [pending]) gets the synthetic error and is added
    to the set, but its state is not forced to [failed]. *)
Lemma suite_end_forces_failed_counterexample :
  ~ (forall (suite : Suite) (st st' : Reporter) (hook : nat) (h : Runnable) (e : Err)
            (t : nat) (x : Runnable),
        failedHook st = Some hook ->
        objects st !! hook = Some h ->
        parent h = suite_id suite ->
        err h = Some e ->
        on_suite_end suite st = Normal st' ->
        t ∈ eachTest suite ->
        objects st !! t = Some x ->
        isPending x || negb (truthy_str (state x)) = true ->
        exists x', objects st' !! t = Some x' /\ state x' = Some "failed"%string).
Proof.
  intros H.
  destruct (on_suite_end example_suite example_reporter) as [st'|] eqn:E;
    [| vm_compute in E; discriminate].
  destruct (H example_suite example_reporter st' 1%nat example_hook example_hook_err
              4%nat example_T3) as (x' & Hx & Hs); try reflexivity; try assumption.
  - unfold example_suite; simpl. rewrite !elem_of_cons. tauto.
  - vm_compute in E. inversion E; subst; clear E.
    vm_compute in Hx. inversion Hx; subst. discriminate.
Qed.

(** C1 (amended): when the scope of the pending hook failure ends, the
    marker is cleared; every test the scope visits that is pending or has no
    state gets the synthetic error, whose message reads
    [Not executed due to <hook title> on "<full title of the scope>"] and
    whose stack is copied from the hook's error, and is in the accumulation
    set; its state becomes [failed] only when it had none, a state it
    already carries is kept, and nothing else of it changes.  A test that is
    not pending and has a state, and every object outside the scope, is left
    as it was, and the set keeps its earlier members in their order. *)
Theorem suite_end_settles_unresolved_tests
    (suite : Suite) (st : Reporter) (hook : nat) (h : Runnable) (e : Err) :
  failedHook st = Some hook ->
  objects st !! hook = Some h ->
  parent h = suite_id suite ->
  err h = Some e ->
  exists st',
    on_suite_end suite st = Normal st' /\
    failedHook st' = None /\
    (forall t x, t ∈ eachTest suite -> objects st !! t = Some x ->
       if isPending x || negb (truthy_str (state x)) then
         exists x',
           objects st' !! t = Some x' /\
           err x' = Some (mkErr ("Not executed due to " +:+ title h +:+ " on " +:+
                                 DQ +:+ fullTitle suite +:+ DQ)
                                (stack e)) /\
           state x' = (if truthy_str (state x) then state x else Some "failed"%string) /\
           type x' = type x /\ title x' = title x /\ parent x' = parent x /\
           isPending x' = isPending x /\ start x' = start x /\ end_ x' = end_ x /\
           attachments x' = attachments x /\
           t ∈ tests st'
       else objects st' !! t = Some x /\ (t ∈ tests st' <-> t ∈ tests st)) /\
    (forall t, t ∉ eachTest suite ->
       objects st' !! t = objects st !! t /\ (t ∈ tests st' <-> t ∈ tests st)) /\
    (exists extra, tests st' = tests st ++ extra).
Proof.
  intros Hf Hh Hp He.
  destruct (each_test_spec hook suite (title h) (stack e) (eachTest suite) st)
    as (st1 & E1 & F1 & O1 & T1 & X1).
  { now exists h, e. }
  unfold on_suite_end. rewrite Hf, Hh, Hp, Nat.eqb_refl, E1.
  eexists; split; [reflexivity |]. simpl.
  split; [reflexivity |]. split; [| split; [| assumption]].
  - intros t x Hin Hx. fold (unresolved x).
    specialize (O1 t). rewrite decide_True, Hx in O1 by assumption.
    simpl in O1. unfold settle in O1.
    destruct (unresolved x) eqn:Hu.
    + eexists. split; [exact O1 |]. repeat split.
      apply T1. right. eauto.
    + split; [assumption |]. rewrite T1. split; [| now left].
      intros [H|[_ (y & Hy & Hy')]]; [assumption | congruence].
  - intros t Hn. specialize (O1 t). rewrite decide_False in O1 by assumption.
    split; [assumption |]. rewrite T1. split; [| now left].
    intros [H|[H _]]; [assumption | contradiction].
Qed.

Lemma suite_end_settles_unresolved_tests_witness :
  exists st',
    on_suite_end example_suite example_reporter = Normal st' /\
    failedHook st' = None /\
    (state <$> objects st' !! 2%nat) = Some (Some "failed"%string) /\
    (state <$> objects st' !! 3%nat) = Some (Some "passed"%string) /\
    (state <$> objects st' !! 4%nat) = Some (Some "pending"%string) /\
    (err <$> objects st' !! 2%nat) =
      Some (Some (mkErr ("Not executed due to before each hook on " +:+
                         DQ +:+ "Suite X" +:+ DQ)
                        (Some "Error: boom at Context.beforeEach"%string))).
Proof.
  destruct (suite_end_settles_unresolved_tests example_suite example_reporter 1%nat
              example_hook example_hook_err eq_refl eq_refl eq_refl eq_refl)
    as (st' & E & F & U & _).
  exists st'. split; [exact E |]. split; [exact F |].
  assert (I2 : 2%nat ∈ eachTest example_suite) by (simpl; rewrite !elem_of_cons; tauto).
  assert (I3 : 3%nat ∈ eachTest example_suite) by (simpl; rewrite !elem_of_cons; tauto).
  assert (I4 : 4%nat ∈ eachTest example_suite) by (simpl; rewrite !elem_of_cons; tauto).
  pose proof (U 2%nat example_T1 I2 eq_refl) as U2.
  pose proof (U 3%nat example_T2 I3 eq_refl) as U3.
  pose proof (U 4%nat example_T3 I4 eq_refl) as U4.
  simpl in U2, U3, U4.
  destruct U2 as (x2 & L2 & M2 & S2 & _).
  destruct U3 as (L3 & _).
  destruct U4 as (x4 & L4 & _ & S4 & _).
  rewrite L2, L3, L4. simpl. rewrite S2, S4, M2. repeat split.
Defined.

(** ** The loop over the accumulated tests *)

Lemma split_not_nil (c : ascii) (s : string) : split c s <> [].
Proof.
  induction s as [|x s IH]; simpl; [discriminate |].
  destruct (Ascii.eqb x c); [discriminate |].
  destruct (split c s); discriminate.
Qed.

Lemma attachment_name_Some (env : Env) (a : string) :
  attachment_name env a = Some (base_name env a).
Proof.
  unfold base_name, attachment_name, pop.
  destruct (last (split (path_sep env) a)) eqn:E; [reflexivity |].
  apply last_None in E. now destruct (split_not_nil (path_sep env) a).
Qed.

Lemma with_results_nil (r : TestRun) : with_results [] r = r.
Proof. destruct r; unfold with_results; simpl. now rewrite app_nil_r. Qed.

Lemma with_results_app (a b : list TrxResult) (r : TestRun) :
  with_results (a ++ b) r = with_results b (with_results a r).
Proof. unfold with_results; simpl. now rewrite app_assoc. Qed.

Lemma failures_logged_app (env : Env) (h n1 n2 : list Effect) :
  failures_logged env h n1 ->
  failures_logged env (h ++ n1) n2 ->
  failures_logged env h (n1 ++ n2).
Proof.
  revert h; induction n1 as [|e n1 IH]; intros h H1 H2.
  - now rewrite app_nil_r in H2.
  - destruct H1 as [He H1]. simpl. split.
    + destruct e; try exact I; intros err Herr;
        destruct (He err Herr) as [r' ->]; now exists (r' ++ n2).
    + apply IH; [assumption |].
      now rewrite <- app_assoc.
Qed.

Lemma relocation_log_nil (env : Env) (h : list Effect) : relocation_log env h [] [].
Proof. repeat split. constructor. Qed.

Lemma relocation_log_app (env : Env) (h n1 n2 c1 c2 : list Effect) :
  relocation_log env h n1 c1 ->
  relocation_log env (h ++ n1) n2 c2 ->
  relocation_log env h (n1 ++ n2) (c1 ++ c2).
Proof.
  intros (F1 & A1 & L1) (F2 & A2 & L2). split; [| split].
  - now rewrite List.filter_app, F1, F2.
  - apply Forall_app. now split.
  - now apply failures_logged_app.
Qed.

Lemma copy_attachment_run (env : Env) (dir a : string) (s : RunState) :
  exists new,
    copy_attachment env dir a s =
      (Normal (mkResultFile (base_name env a)),
       mkRunState (run s) (excludedPendingCount s) (log s ++ new) (uuids s)) /\
    relocation_log env (log s) new
      [CopyFileSync a (path_join env [dir; base_name env a])].
Proof.
  unfold copy_attachment. rewrite attachment_name_Some.
  unfold bind, emit, try_catch, fs_call, ret, record; simpl.
  destruct (fs_throws env _ _) as [err|] eqn:E; simpl;
    eexists; (split; [rewrite <- !app_assoc; reflexivity |]).
  - split; [reflexivity |]. split; [repeat constructor |].
    simpl. split; [exact I |]. split; [| split; exact I].
    intros err' H. rewrite E in H. inversion H; subst. now exists [].
  - split; [reflexivity |]. split; [repeat constructor |].
    simpl. split; [exact I |]. split; [| exact I].
    intros err' H. rewrite E in H. discriminate.
Qed.

Lemma map_copy_attachment_run (env : Env) (dir : string) (atts : list string)
    (s : RunState) :
  exists new,
    map_M (copy_attachment env dir) atts s =
      (Normal (map (fun a => mkResultFile (base_name env a)) atts),
       mkRunState (run s) (excludedPendingCount s) (log s ++ new) (uuids s)) /\
    relocation_log env (log s) new
      (map (fun a => CopyFileSync a (path_join env [dir; base_name env a])) atts).
Proof.
  revert s; induction atts as [|a atts IH]; intros s.
  - exists []. split; [| apply relocation_log_nil].
    simpl. unfold ret. rewrite app_nil_r. now destruct s.
  - destruct (copy_attachment_run env dir a s) as (n1 & E1 & L1).
    destruct (IH (mkRunState (run s) (excludedPendingCount s) (log s ++ n1) (uuids s)))
      as (n2 & E2 & L2).
    exists (n1 ++ n2). split.
    + simpl. unfold bind at 1. rewrite E1. unfold bind at 1. rewrite E2.
      unfold ret; simpl. now rewrite app_assoc.
    + apply (relocation_log_app env (log s) n1 n2 [_] _); assumption.
Qed.

Lemma choose_id_run (env : Env) (r : TrxResult) (s : RunState) :
  (match executionId r with
   | Some i => if String.eqb i "" then fresh_uuid env else ret i
   | None => fresh_uuid env
   end) s =
  (Normal (chosen_id env (uuids s) r),
   mkRunState (run s) (excludedPendingCount s) (log s) (uuids s + draws r)).
Proof.
  unfold chosen_id, draws, truthy_str, fresh_uuid, ret.
  destruct (executionId r) as [i|]; [destruct (String.eqb i "") |]; simpl;
    rewrite ?Nat.add_0_r, ?Nat.add_1_r; try reflexivity.
  now destruct s.
Qed.

Lemma relocate_run (env : Env) (filename : string) (atts : list string)
    (r : TrxResult) (s : RunState) :
  exists new,
    relocate env filename atts r s =
      (Normal (relocated env (uuids s) atts r),
       mkRunState (run s) (excludedPendingCount s) (log s ++ new)
                  (uuids s + draws r)) /\
    relocation_log env (log s) new
      (relocation_calls env filename (chosen_dir env (uuids s) r) atts).
Proof.
  unfold relocate. unfold bind at 1. rewrite choose_id_run.
  cbn [relativeResultsDirectory set_executionId].
  change (or_str (relativeResultsDirectory r) (chosen_id env (uuids s) r))
    with (chosen_dir env (uuids s) r).
  set (dir := attachment_dir env filename (chosen_dir env (uuids s) r)).
  set (line := StdoutWrite _).
  unfold bind at 1. unfold emit at 1. unfold bind at 1.
  unfold try_catch, fs_call, record; cbn [log run excludedPendingCount uuids].
  destruct (fs_throws env (log s ++ [line]) (MkdirSync dir true)) as [err|] eqn:E.
  - unfold emit, record; simpl.
    match goal with |- context [bind (map_M _ _) _ ?st] =>
      destruct (map_copy_attachment_run env dir atts st) as (n2 & E2 & L2) end.
    simpl in E2, L2.
    exists ([line; MkdirSync dir true; StdoutWrite (mkdir_error dir err)] ++ n2).
    split.
    + unfold bind. rewrite E2. unfold ret, relocated. simpl.
      rewrite <- !app_assoc. reflexivity.
    + apply (relocation_log_app env (log s) _ n2 [MkdirSync dir true] _).
      * split; [reflexivity |]. split; [repeat constructor |].
        simpl. split; [exact I |]. split; [| split; exact I].
        intros err' H. rewrite E in H. inversion H; subst. now exists [].
      * rewrite <- !app_assoc in L2. exact L2.
  - match goal with |- context [bind (map_M _ _) _ ?st] =>
      destruct (map_copy_attachment_run env dir atts st) as (n2 & E2 & L2) end.
    simpl in E2, L2.
    exists ([line; MkdirSync dir true] ++ n2).
    split.
    + unfold bind. rewrite E2. unfold ret, relocated. simpl.
      rewrite <- !app_assoc. reflexivity.
    + apply (relocation_log_app env (log s) _ n2 [MkdirSync dir true] _).
      * split; [reflexivity |]. split; [repeat constructor |].
        simpl. split; [exact I |]. split; [| exact I].
        intros err' H. rewrite E in H. discriminate.
      * rewrite <- !app_assoc in L2. exact L2.
Qed.

Lemma each_result_excluded (env : Env) (ro : ReporterOptions) (filename : JsVal)
    (t : Runnable) (s : RunState) :
  excluded ro t = true ->
  each_result env ro filename t s =
    (Normal tt, mkRunState (run s) (S (excludedPendingCount s)) (log s) (uuids s)).
Proof. intros H. unfold each_result. now rewrite H. Qed.

Lemma each_result_plain (env : Env) (ro : ReporterOptions) (filename : JsVal)
    (t : Runnable) (s : RunState) :
  excluded ro t = false ->
  truthy filename && has_attachments t = false ->
  each_result env ro filename t s =
    (Normal tt,
     mkRunState (addResult (testToTrx env t (computerName env) (cwd env) ro) (run s))
                (excludedPendingCount s) (log s) (uuids s)).
Proof. intros H1 H2. unfold each_result. now rewrite H1, H2. Qed.

Lemma each_result_relocating (env : Env) (ro : ReporterOptions) (f : string)
    (t : Runnable) (s : RunState) :
  excluded ro t = false ->
  truthy (VStr f) && has_attachments t = true ->
  let r := testToTrx env t (computerName env) (cwd env) ro in
  let atts := default [] (attachments t) in
  exists new,
    each_result env ro (VStr f) t s =
      (Normal tt,
       mkRunState (addResult (relocated env (uuids s) atts r) (run s))
                  (excludedPendingCount s) (log s ++ new) (uuids s + draws r)) /\
    relocation_log env (log s) new
      (relocation_calls env f (chosen_dir env (uuids s) r) atts).
Proof.
  intros H1 H2 r atts.
  destruct (relocate_run env f atts r s) as (new & E & L).
  exists new. split; [| exact L].
  unfold each_result. rewrite H1, H2. unfold bind.
  fold r. fold atts. now rewrite E.
Qed.

(** The loop never throws; it adds the entries [entries] lists, counts the
    tests it skips, and touches the file system by [loop_calls] only. *)
Lemma forEach_each_result_run (env : Env) (ro : ReporterOptions) (filename : JsVal)
    (tests : list Runnable) (s : RunState) :
  string_or_falsy filename ->
  exists s' new,
    forEach (each_result env ro filename) tests s = (Normal tt, s') /\
    run s' = with_results (entries env ro filename (uuids s) tests) (run s) /\
    excludedPendingCount s' =
      (excludedPendingCount s + List.length (List.filter (excluded ro) tests))%nat /\
    log s' = log s ++ new /\
    relocation_log env (log s) new (loop_calls env ro filename (uuids s) tests) /\
    (truthy filename = false -> new = []).
Proof.
  intros Hv. revert s; induction tests as [|t ts IH]; intros s.
  - exists s, []. simpl. unfold ret. rewrite with_results_nil, app_nil_r.
    repeat split; auto using relocation_log_nil.
  - simpl. destruct (excluded ro t) eqn:Hx.
    + set (s1 := mkRunState (run s) (S (excludedPendingCount s)) (log s) (uuids s)).
      destruct (IH s1) as (s' & new & E & R & C & L & P & Q).
      exists s', new. unfold bind. rewrite each_result_excluded by assumption.
      fold s1. rewrite E. simpl in *.
      split; [reflexivity |]. split; [assumption |]. split; [lia |].
      split; [assumption |]. split; assumption.
    + destruct (truthy filename && has_attachments t) eqn:Hr.
      * destruct Hv as [Hv|[f ->]]; [now rewrite Hv in Hr |].
        destruct (each_result_relocating env ro f t s Hx Hr) as (n1 & E1 & L1).
        cbv zeta in E1, L1.
        match type of E1 with _ = (_, ?st) => set (s1 := st) in * end.
        destruct (IH s1) as (s' & n2 & E & R & C & L & P & Q).
        exists s', (n1 ++ n2). unfold bind. rewrite E1, E. simpl in *.
        split; [reflexivity |]. split; [| split; [| split; [| split]]].
        -- rewrite R. unfold with_results, addResult; simpl.
           now rewrite <- app_assoc.
        -- assumption.
        -- now rewrite L, app_assoc.
        -- exact (relocation_log_app _ _ _ _ _ _ L1 P).
        -- intros H. apply andb_true_iff in Hr. rewrite H in Hr.
           now destruct Hr.
      * set (s1 := mkRunState
                     (addResult (testToTrx env t (computerName env) (cwd env) ro) (run s))
                     (excludedPendingCount s) (log s) (uuids s)).
        destruct (IH s1) as (s' & new & E & R & C & L & P & Q).
        exists s', new. unfold bind. rewrite each_result_plain by assumption.
        fold s1. rewrite E. simpl in *.
        split; [reflexivity |]. split; [| split; [assumption |]].
        -- rewrite R. unfold with_results, addResult; simpl.
           now rewrite <- app_assoc.
        -- split; [assumption |]. split; assumption.
Qed.

(** ** [getFilename] *)

Lemma indexOf_absent (s pat : string) :
  (indexOf s pat =? -1) = true <-> find_first pat s = None.
Proof.
  unfold indexOf. destruct (find_first pat s) as [i|]; split; intros H;
    try reflexivity; try discriminate.
  apply Z.eqb_eq in H. lia.
Qed.

Lemma getFilename_string (env : Env) (ro : ReporterOptions) (p : string) :
  resolved_path env ro = VStr p ->
  getFilename env ro = Normal (VStr (substitute_hash env p)).
Proof.
  intros H. unfold getFilename. fold (resolved_path env ro). rewrite H.
  unfold substitute_hash. simpl.
  destruct (String.eqb_spec p "") as [->|Hne]; simpl; [reflexivity |].
  now destruct (indexOf p "[hash]" =? -1).
Qed.

Lemma getFilename_falsy (env : Env) (ro : ReporterOptions) :
  truthy (resolved_path env ro) = false ->
  getFilename env ro = Normal (resolved_path env ro).
Proof.
  intros H. unfold getFilename. fold (resolved_path env ro). now rewrite H.
Qed.

Lemma resolved_path_string_or_falsy (env : Env) (ro : ReporterOptions) :
  string_or_falsy (output ro) -> string_or_falsy (resolved_path env ro).
Proof.
  unfold resolved_path, js_or. intros [H|[f ->]].
  - rewrite H. destruct (MOCHA_REPORTER_FILE env); [right; eauto | now left].
  - destruct (truthy (VStr f)); [right; eauto |].
    destruct (MOCHA_REPORTER_FILE env); [right; eauto | now left].
Qed.

Lemma truthy_substitute_hash (env : Env) (p : string) :
  truthy (VStr (substitute_hash env p)) = truthy (VStr p).
Proof.
  unfold substitute_hash.
  destruct (indexOf p "[hash]" =? -1) eqn:E; [reflexivity |].
  destruct (find_first "[hash]" p) as [i|] eqn:F.
  - destruct (find_first_replace "[hash]" (toString_hex (randomBytes env 16)) p i F)
      as (a & b & Hp & _ & R).
    cbn [negb]. rewrite R, Hp.
    destruct a; reflexivity.
  - apply indexOf_absent in F. congruence.
Qed.

Lemma getFilename_total (env : Env) (ro : ReporterOptions) :
  string_or_falsy (output ro) ->
  exists v, getFilename env ro = Normal v /\ string_or_falsy v /\
            truthy v = truthy (resolved_path env ro).
Proof.
  intros H. destruct (resolved_path_string_or_falsy env ro H) as [F|[p Hp]].
  - exists (resolved_path env ro). rewrite getFilename_falsy by assumption.
    split; [reflexivity |]. split; [now left | reflexivity].
  - exists (VStr (substitute_hash env p)). rewrite (getFilename_string env ro p Hp).
    split; [reflexivity |]. split; [right; eauto |].
    rewrite Hp. apply truthy_substitute_hash.
Qed.

(** ** The warning and the output step *)

Lemma warn_excluded_run (ro : ReporterOptions) (s : RunState) :
  warn_excluded ro s =
    (Normal tt,
     mkRunState (run s) (excludedPendingCount s)
       (log s ++ warning_part ro (excludedPendingCount s)) (uuids s)).
Proof.
  unfold warn_excluded, warning_part, emit, record.
  destruct (strict_true (warnExcludedPending ro) && Nat.ltb 0 (excludedPendingCount s));
    [reflexivity |].
  rewrite app_nil_r. now destruct s.
Qed.

Lemma write_output_run (env : Env) (filename : JsVal) (s : RunState) :
  string_or_falsy filename ->
  write_output env filename s =
    (fst (output_part env filename (run s) (log s)),
     mkRunState (run s) (excludedPendingCount s)
       (log s ++ snd (output_part env filename (run s) (log s))) (uuids s)).
Proof.
  intros Hv. unfold write_output, output_part.
  destruct (truthy filename) eqn:T.
  - destruct Hv as [Hv|[f ->]]; [congruence |]. simpl.
    unfold bind, fs_call, serialize, record; simpl.
    destruct (fs_throws env (log s) _) as [err|]; simpl; [reflexivity |].
    rewrite <- !app_assoc. simpl.
    destruct (fs_throws env _ _) as [err|]; simpl; reflexivity.
  - unfold bind, serialize, emit, record; simpl.
    now rewrite <- app_assoc.
Qed.

(** The handler, once it has its report document and its file name. *)
Lemma on_end_run (env : Env) (tests : list Runnable) (stats : Stats)
    (options : Options) (date : Date) (log0 : list Effect) :
  reaches_loop stats options ->
  let ro := default no_reporterOptions (reporterOptions options) in
  exists sd ed filename c s3 new,
    stats_start stats = Some sd /\ stats_end stats = Some ed /\
    getFilename env ro = Normal filename /\ string_or_falsy filename /\
    truthy filename = truthy (resolved_path env ro) /\
    on_end env tests stats options date log0 = (c, Some s3) /\
    run s3 = with_results (entries env ro filename 0 tests)
               (new_TestRun env (toISOString date) sd ed) /\
    excludedPendingCount s3 = List.length (List.filter (excluded ro) tests) /\
    relocation_log env log0 new (loop_calls env ro filename 0 tests) /\
    (truthy filename = false -> new = []) /\
    let h := log0 ++ new ++ warning_part ro (excludedPendingCount s3) in
    c = fst (output_part env filename (run s3) h) /\
    log s3 = h ++ snd (output_part env filename (run s3) h).
Proof.
  intros ([sd Hsd] & [ed Hed] & Hout) ro.
  destruct (getFilename_total env ro Hout) as (v & Hv & Hs & Ht).
  set (s0 := mkRunState (new_TestRun env (toISOString date) sd ed) O log0 O).
  destruct (forEach_each_result_run env ro v tests s0 Hs)
    as (s1 & new & E & R & C & L & P & Q).
  exists sd, ed, v.
  unfold on_end. rewrite Hsd, Hed. fold ro. rewrite Hv. fold s0.
  unfold bind at 1. rewrite E. unfold bind at 1.
  rewrite warn_excluded_run, write_output_run by assumption. simpl.
  eexists _, _, new. simpl in *.
  repeat (split; [first [reflexivity | assumption] |]).
  rewrite L, C, <- !app_assoc. simpl. split; reflexivity.
Qed.

(** ** The entries and the log, read off *)

Lemma entry_of_testToTrx (env : Env) (ro : ReporterOptions) (t : Runnable) :
  entry_of env ro t (testToTrx env t (computerName env) (cwd env) ro).
Proof. repeat split. Qed.

Lemma entry_of_relocated (env : Env) (ro : ReporterOptions) (t : Runnable)
    (k : nat) (atts : list string) :
  entry_of env ro t (relocated env k atts (testToTrx env t (computerName env) (cwd env) ro)).
Proof. repeat split. Qed.

(** Every entry the loop adds is the entry of a test it did not skip, in the
    order of the tests. *)
Lemma entries_entry_of (env : Env) (ro : ReporterOptions) (filename : JsVal)
    (k : nat) (tests : list Runnable) :
  Forall2 (entry_of env ro)
    (List.filter (fun t => negb (excluded ro t)) tests)
    (entries env ro filename k tests).
Proof.
  revert k; induction tests as [|t ts IH]; intros k; simpl; [constructor |].
  destruct (excluded ro t); simpl; [apply IH |].
  destruct (truthy filename && has_attachments t); constructor;
    auto using entry_of_testToTrx, entry_of_relocated.
Qed.

Lemma results_with_results (rs : list TrxResult) (env : Env) (now : string)
    (s e : Date) :
  results (with_results rs (new_TestRun env now s e)) = rs.
Proof. reflexivity. Qed.

Lemma filter_ext_bool {A : Type} (f g : A -> bool) (l : list A) :
  (forall x, f x = g x) -> List.filter f l = List.filter g l.
Proof.
  intros H. induction l as [|x l IH]; simpl; [reflexivity |].
  now rewrite H, IH.
Qed.

Lemma filter_none {A : Type} (f : A -> bool) (l : list A) :
  Forall (fun x => f x = false) l -> List.filter f l = [].
Proof.
  induction 1 as [|x l Hx _ IH]; simpl; [reflexivity |]. now rewrite Hx.
Qed.

Lemma filter_all {A : Type} (f : A -> bool) (l : list A) :
  (forall x, f x = true) -> List.filter f l = l.
Proof.
  intros H. induction l as [|x l IH]; simpl; [reflexivity |]. now rewrite H, IH.
Qed.

Lemma loop_adds_no_warning (env : Env) (h new calls : list Effect) :
  relocation_log env h new calls ->
  List.filter is_warning new = [] /\ List.filter is_toXml new = [].
Proof.
  intros (_ & A & _). split; apply filter_none;
    (eapply Forall_impl; [exact A |]); intros [] H; simpl in *; congruence.
Qed.

Lemma output_part_no_warning (env : Env) (filename : JsVal) (r : TestRun)
    (h : list Effect) :
  List.filter is_warning (snd (output_part env filename r h)) = [].
Proof.
  unfold output_part. destruct (truthy filename); [| reflexivity].
  now destruct (fs_throws env h _).
Qed.

Lemma warning_part_plain (ro : ReporterOptions) (n : nat) :
  List.filter is_toXml (warning_part ro n) = [] /\
  List.filter is_fs (warning_part ro n) = [] /\
  List.filter is_warning (warning_part ro n) = warning_part ro n.
Proof.
  unfold warning_part.
  now destruct (strict_true (warnExcludedPending ro) && Nat.ltb 0 n).
Qed.

Lemma strict_true_iff (v : JsVal) : strict_true v = true <-> v = VBool true.
Proof.
  destruct v as [| |[]| |]; simpl; split; intros H;
    try reflexivity; try discriminate.
Qed.

Lemma excluded_when_true (ro : ReporterOptions) (t : Runnable) :
  excludePending ro = VBool true -> excluded ro t = isPending t.
Proof. intros H. unfold excluded. rewrite H. simpl. apply andb_true_r. Qed.

Lemma excluded_unless_true (ro : ReporterOptions) (t : Runnable) :
  excludePending ro <> VBool true -> excluded ro t = false.
Proof.
  intros H. unfold excluded.
  destruct (strict_true (excludePending ro)) eqn:E; [| apply andb_false_r].
  apply strict_true_iff in E. contradiction.
Qed.

(** C4: with [excludePending === true] the report document holds, in the
    order of the accumulated tests, exactly the entries of the tests that
    are not pending, so no entry whose source test was pending, and the
    count of excluded tests is the number of pending tests accumulated. *)
Theorem excludePending_drops_pending_tests (env : Env) (tests : list Runnable)
    (stats : Stats) (options : Options) (date : Date) (log0 : list Effect) :
  let ro := default no_reporterOptions (reporterOptions options) in
  reaches_loop stats options ->
  excludePending ro = VBool true ->
  exists c s,
    on_end env tests stats options date log0 = (c, Some s) /\
    Forall2 (entry_of env ro)
      (List.filter (fun t => negb (isPending t)) tests) (results (run s)) /\
    excludedPendingCount s = List.length (List.filter isPending tests).
Proof.
  intros ro Hr Hx.
  destruct (on_end_run env tests stats options date log0 Hr)
    as (sd & ed & v & c & s & new & _ & _ & _ & _ & _ & E & R & C & _).
  fold ro in R, C. exists c, s. split; [exact E |]. split.
  - rewrite R, results_with_results.
    rewrite (filter_ext_bool (fun t => negb (isPending t))
                             (fun t => negb (excluded ro t))).
    + apply entries_entry_of.
    + intros t. now rewrite excluded_when_true.
  - rewrite C. f_equal. apply filter_ext_bool.
    intros t. now apply excluded_when_true.
Qed.

Lemma excludePending_drops_pending_tests_witness :
  exists c s,
    on_end example_env [example_A; example_P; example_B] example_stats
      (options_with (VStr "results/out.trx") (VBool true) (VBool true))
      example_date [] = (c, Some s) /\
    List.length (results (run s)) = 2%nat /\
    excludedPendingCount s = 1%nat.
Proof.
  destruct (excludePending_drops_pending_tests example_env
              [example_A; example_P; example_B] example_stats
              (options_with (VStr "results/out.trx") (VBool true) (VBool true))
              example_date [])
    as (c & s & E & F & C).
  - split; [now exists example_date |]. split; [now exists example_date |].
    right. now exists "results/out.trx"%string.
  - reflexivity.
  - exists c, s. split; [exact E |]. split; [| exact C].
    apply Forall2_length in F. simpl in F. now rewrite <- F.
Defined.

Lemma substitute_hash_first (env : Env) (p : string) (i : nat) :
  find_first "[hash]" p = Some i ->
  exists a b, p = a +:+ "[hash]" +:+ b /\ String.length a = i /\
              substitute_hash env p =
                a +:+ toString_hex (randomBytes env 16) +:+ b.
Proof.
  intros F. unfold substitute_hash.
  destruct (indexOf p "[hash]" =? -1) eqn:E.
  - apply indexOf_absent in E. congruence.
  - now apply find_first_replace.
Qed.

Lemma substitute_hash_absent (env : Env) (p : string) :
  find_first "[hash]" p = None -> substitute_hash env p = p.
Proof.
  intros F. unfold substitute_hash.
  apply indexOf_absent in F. now rewrite F.
Qed.

Lemma randomBytes_length (env : Env) (n : nat) : List.length (randomBytes env n) = n.
Proof. unfold randomBytes. now rewrite length_map, length_seq. Qed.

(** C3: the [output] option, when it is a non-empty string, decides the path
    whatever the environment variable holds; the variable is used when the
    option is falsy; in the path so resolved the token [[hash]] (its first
    occurrence) is replaced by the 32 lowercase hexadecimal digits of 16
    bytes drawn for this call; with neither set [getFilename] returns
    [undefined] and the handler writes the serialized report to standard
    output and makes no file-system call. *)
Theorem output_path_resolution (env : Env) (ro : ReporterOptions) :
  let hex := toString_hex (randomBytes env 16) in
  (forall p, output ro = VStr p -> p <> EmptyString ->
     getFilename env ro = Normal (VStr (substitute_hash env p))) /\
  (forall e, truthy (output ro) = false -> MOCHA_REPORTER_FILE env = Some e ->
     getFilename env ro = Normal (VStr (substitute_hash env e))) /\
  (forall p a0 b0, p = a0 +:+ "[hash]" +:+ b0 ->
     exists a b, p = a +:+ "[hash]" +:+ b /\
                 substitute_hash env p = a +:+ hex +:+ b) /\
  (forall p, (forall a b, p <> a +:+ "[hash]" +:+ b) -> substitute_hash env p = p) /\
  String.length hex = 32%nat /\
  string_forall is_lower_hex hex = true /\
  (truthy (output ro) = false -> MOCHA_REPORTER_FILE env = None ->
     getFilename env ro = Normal VUndefined /\
     forall tests stats options date log0,
       default no_reporterOptions (reporterOptions options) = ro ->
       is_Some (stats_start stats) -> is_Some (stats_end stats) ->
       exists s,
         on_end env tests stats options date log0 = (Normal tt, Some s) /\
         log s = log0 ++ warning_part ro (excludedPendingCount s) ++
                 [ToXml (toXml env (run s)); StdoutWrite (toXml env (run s))] /\
         List.filter is_fs (log s) = List.filter is_fs log0).
Proof.
  intros hex.
  split.
  { intros p Hp Hne. apply getFilename_string.
    unfold resolved_path, js_or. rewrite Hp. simpl.
    now destruct (String.eqb_spec p ""). }
  split.
  { intros e Hf He. apply getFilename_string.
    unfold resolved_path, js_or. now rewrite Hf, He. }
  split.
  { intros p a0 b0 Hp.
    destruct (find_first_complete "[hash]" a0 b0) as [i Hi]. rewrite <- Hp in Hi.
    destruct (substitute_hash_first env p i Hi) as (a & b & H1 & _ & H2).
    now exists a, b. }
  split.
  { intros p Hp. apply substitute_hash_absent.
    destruct (find_first "[hash]" p) as [i|] eqn:F; [| reflexivity].
    destruct (find_first_replace "[hash]" "" p i F) as (a & b & H & _).
    now destruct (Hp a b). }
  split.
  { unfold hex. now rewrite toString_hex_length, randomBytes_length. }
  split.
  { apply toString_hex_lower. }
  intros Hf He.
  assert (R : resolved_path env ro = VUndefined)
    by (unfold resolved_path, js_or; now rewrite Hf, He).
  split.
  { rewrite getFilename_falsy; now rewrite R. }
  intros tests stats options date log0 Hro Hs Hd.
  assert (Hr : reaches_loop stats options).
  { split; [assumption |]. split; [assumption |]. rewrite Hro. now left. }
  destruct (on_end_run env tests stats options date log0 Hr)
    as (sd & ed & v & c & s & new & _ & _ & G & _ & T & E & _ & _ & L & N & Hc & Hl).
  rewrite Hro in *. rewrite R in T. simpl in T.
  rewrite (N T) in Hl, Hc. simpl in Hl, Hc.
  unfold output_part in Hl, Hc. rewrite T in Hl, Hc. simpl in Hl, Hc.
  exists s. subst c. split; [exact E |]. split.
  - rewrite Hl. now rewrite <- app_assoc.
  - rewrite Hl, !List.filter_app.
    destruct (warning_part_plain ro (excludedPendingCount s)) as (_ & -> & _).
    simpl. now rewrite !app_nil_r.
Qed.

Lemma output_path_resolution_witness :
  getFilename example_env (mkReporterOptions (VStr "out/[hash].trx") VUndefined VUndefined)
    = Normal (VStr "out/031425364758697a8b9cadbecfe0f100.trx") /\
  exists s,
    on_end example_env [example_A; example_B] example_stats
      (options_with VUndefined VUndefined VUndefined) example_date []
      = (Normal tt, Some s) /\
    List.filter is_fs (log s) = [].
Proof.
  pose proof (output_path_resolution example_env
                (mkReporterOptions (VStr "out/[hash].trx") VUndefined VUndefined))
    as (H1 & _).
  pose proof (output_path_resolution example_env
                (mkReporterOptions VUndefined VUndefined VUndefined))
    as (_ & _ & _ & _ & _ & _ & H7).
  split.
  - rewrite (H1 "out/[hash].trx"%string eq_refl); [reflexivity | discriminate].
  - destruct (H7 eq_refl eq_refl) as [_ H].
    destruct (H [example_A; example_B] example_stats
                (options_with VUndefined VUndefined VUndefined) example_date []
                eq_refl) as (s & E & _ & F).
    + now exists example_date.
    + now exists example_date.
    + exists s. split; [exact E | exact F].
Defined.



(** C10: a value of [excludePending] other than the boolean [true] (the
    string [true], say) excludes nothing: every accumulated test, pending
    ones too, has its entry in the report, the count stays zero and no
    warning is emitted; a value of [warnExcludedPending] other than the
    boolean [true] emits no warning. *)
Theorem exclusion_needs_boolean_true (env : Env) (tests : list Runnable)
    (stats : Stats) (options : Options) (date : Date) (log0 : list Effect) :
  let ro := default no_reporterOptions (reporterOptions options) in
  reaches_loop stats options ->
  exists c s new,
    on_end env tests stats options date log0 = (c, Some s) /\
    log s = log0 ++ new /\
    (excludePending ro <> VBool true ->
     Forall2 (entry_of env ro) tests (results (run s)) /\
     excludedPendingCount s = O /\
     List.filter is_warning new = []) /\
    (warnExcludedPending ro <> VBool true -> List.filter is_warning new = []).
Proof.
  intros ro Hr.
  destruct (on_end_run env tests stats options date log0 Hr)
    as (sd & ed & v & c & s & new & _ & _ & _ & _ & _ & E & R & C & L & _ & _ & Hl).
  fold ro in R, C, L, Hl.
  destruct (loop_adds_no_warning _ _ _ _ L) as [W _].
  exists c, s. eexists. split; [exact E |].
  split; [rewrite Hl, <- !app_assoc; reflexivity |].
  rewrite !List.filter_app, W, output_part_no_warning, app_nil_r. simpl.
  destruct (warning_part_plain ro (excludedPendingCount s)) as (_ & _ & ->).
  split.
  - intros Hx.
    assert (Hn : List.filter (excluded ro) tests = []).
    { apply filter_none, Forall_forall. intros t _.
      now apply excluded_unless_true. }
    rewrite Hn in C. simpl in C. split; [| split; [exact C |]].
    + rewrite R, results_with_results.
      rewrite <- (filter_all (fun t => negb (excluded ro t)) tests) at 1.
      * apply entries_entry_of.
      * intros t. now rewrite excluded_unless_true.
    + unfold warning_part. rewrite C. simpl. now rewrite andb_false_r.
  - intros Hw. unfold warning_part.
    destruct (strict_true (warnExcludedPending ro)) eqn:S; [| reflexivity].
    apply strict_true_iff in S. contradiction.
Qed.

Lemma exclusion_needs_boolean_true_witness :
  exists c s new,
    on_end example_env [example_A; example_P; example_B] example_stats
      (options_with (VStr "results/out.trx") (VStr "true") (VStr "true"))
      example_date [] = (c, Some s) /\
    log s = new /\
    List.length (results (run s)) = 3%nat /\
    excludedPendingCount s = O /\
    List.filter is_warning new = [].
Proof.
  destruct (exclusion_needs_boolean_true example_env
              [example_A; example_P; example_B] example_stats
              (options_with (VStr "results/out.trx") (VStr "true") (VStr "true"))
              example_date [])
    as (c & s & new & E & L & X & _).
  - split; [now exists example_date |]. split; [now exists example_date |].
    right. now exists "results/out.trx"%string.
  - destruct X as (F & C & W); [discriminate |].
    exists c, s, new. split; [exact E |]. split; [exact L |].
    split; [| split; assumption].
    apply Forall2_length in F. simpl in F. now rewrite <- F.
Defined.

(** ** The output step *)

(** C6, as the claim states it, fails: when creating the parent directory of
    the output file throws, the handler ends there and the report document
    is never serialized. *)
Lemma report_serialized_once_counterexample :
  reaches_loop example_stats
    (options_with (VStr "results/out.trx") VUndefined VUndefined) /\
  exists s,
    on_end example_env_readonly [example_B] example_stats
      (options_with (VStr "results/out.trx") VUndefined VUndefined) example_date []
      = (Throw "Error: EACCES: permission denied", Some s) /\
    log s = [MkdirSync "results" true] /\
    List.filter is_toXml (log s) = [].
Proof.
  split.
  - split; [now exists example_date |]. split; [now exists example_date |].
    right. now exists "results/out.trx"%string.
  - eexists. split; [vm_compute; reflexivity |]. split; reflexivity.
Qed.

(** C6 (amended): a handler that reaches its output step serializes the
    report document at most once, and nothing before that step serializes
    it.  With an output path it first calls [mkdirSync] on the path's parent
    directory, recursively; if that call throws, the handler ends with the
    error and nothing is serialized or written; otherwise the document is
    serialized once and [writeFileSync] is called with the path and the
    serialized content.  Without an output path the document is serialized
    once and written to standard output, and the handler makes no
    file-system call. *)
Theorem report_serialized_at_most_once (env : Env) (tests : list Runnable)
    (stats : Stats) (options : Options) (date : Date) (log0 : list Effect) :
  let ro := default no_reporterOptions (reporterOptions options) in
  reaches_loop stats options ->
  exists filename c s before,
    getFilename env ro = Normal filename /\
    on_end env tests stats options date log0 = (c, Some s) /\
    List.filter is_toXml before = [] /\
    let xml := toXml env (run s) in
    if truthy filename then
      exists f, filename = VStr f /\
      let mk := MkdirSync (path_dirname env f) true in
      let wr := WriteFileSync f xml "utf-8" in
      match fs_throws env (log0 ++ before) mk with
      | Some err =>
          c = Throw err /\ log s = log0 ++ before ++ [mk]
      | None =>
          log s = log0 ++ before ++ [mk; ToXml xml; wr] /\
          c = match fs_throws env (log0 ++ before ++ [mk; ToXml xml]) wr with
              | Some err => Throw err
              | None => Normal tt
              end
      end
    else
      c = Normal tt /\
      log s = log0 ++ before ++ [ToXml xml; StdoutWrite xml] /\
      List.filter is_fs before = [].
Proof.
  intros ro Hr.
  destruct (on_end_run env tests stats options date log0 Hr)
    as (sd & ed & v & c & s & new & _ & _ & G & Hv & _ & E & _ & _ & L & N & Hc & Hl).
  fold ro in G, L, N, Hc, Hl.
  destruct (loop_adds_no_warning _ _ _ _ L) as [_ X].
  destruct (warning_part_plain ro (excludedPendingCount s)) as (X' & F' & _).
  exists v, c, s, (new ++ warning_part ro (excludedPendingCount s)).
  split; [exact G |]. split; [exact E |].
  split; [now rewrite List.filter_app, X, X' |].
  cbv zeta. rewrite <- !app_assoc, !app_assoc in *.
  unfold output_part in Hc, Hl.
  destruct (truthy v) eqn:T.
  - destruct Hv as [Hv|[f ->]]; [congruence |]. exists f. split; [reflexivity |].
    simpl in Hc, Hl.
    destruct (fs_throws env _ (MkdirSync (path_dirname env f) true)) as [err|].
    + simpl in Hc, Hl. split; [exact Hc |]. rewrite Hl. now rewrite <- !app_assoc.
    + simpl in Hc, Hl. split; [rewrite Hl; now rewrite <- !app_assoc |].
      rewrite <- !app_assoc in Hc. rewrite <- !app_assoc. exact Hc.
  - simpl in Hc, Hl. split; [exact Hc |].
    split; [rewrite Hl; now rewrite <- !app_assoc |].
    rewrite (N eq_refl). simpl. exact F'.
Qed.

Lemma report_serialized_at_most_once_witness :
  exists c s,
    on_end example_env [example_A; example_B] example_stats
      (options_with (VStr "results/out.trx") VUndefined VUndefined) example_date []
      = (c, Some s) /\
    exists before,
      log s = before ++
              [MkdirSync "results" true; ToXml (example_toXml (run s));
               WriteFileSync "results/out.trx" (example_toXml (run s)) "utf-8"].
Proof.
  destruct (report_serialized_at_most_once example_env [example_A; example_B]
              example_stats
              (options_with (VStr "results/out.trx") VUndefined VUndefined)
              example_date [])
    as (v & c & s & before & G & E & _ & H).
  - split; [now exists example_date |]. split; [now exists example_date |].
    right. now exists "results/out.trx"%string.
  - vm_compute in G. inversion G; subst v; clear G.
    cbv zeta in H. simpl in H. destruct H as (f & Hf & H).
    inversion Hf; subst f; clear Hf.
    destruct H as [H _].
    exists c, s. split; [exact E |]. exists before. exact H.
Defined.

(** ** Failures while attachments are relocated *)

Lemma entries_with_fs (fs : list Effect -> Effect -> option string) (env : Env)
    (ro : ReporterOptions) (filename : JsVal) (k : nat) (tests : list Runnable) :
  entries (with_fs fs env) ro filename k tests = entries env ro filename k tests.
Proof.
  revert k; induction tests as [|t ts IH]; intros k; simpl; [reflexivity |].
  now rewrite !IH.
Qed.

(** C5: whatever the file system does while attachments are relocated, the
    loop over the tests completes and the handler goes on to its output step
    (that step alone decides how the handler ends); every [mkdirSync] and
    [copyFileSync] of the loop that threw is followed at once by a line on
    standard output holding the path and the error; and the report document
    and the count of excluded tests are those of a run in which no call
    fails: each test that is not excluded has its entry, with the outcome
    [testToTrx] recorded. *)
Theorem attachment_failures_are_logged_not_raised (env : Env)
    (tests : list Runnable) (stats : Stats) (options : Options) (date : Date)
    (log0 : list Effect) :
  let ro := default no_reporterOptions (reporterOptions options) in
  reaches_loop stats options ->
  exists filename c s s' new,
    getFilename env ro = Normal filename /\
    on_end env tests stats options date log0 = (c, Some s) /\
    on_end (with_fs never_throws env) tests stats options date log0
      = (Normal tt, Some s') /\
    run s = run s' /\
    excludedPendingCount s = excludedPendingCount s' /\
    Forall2 (entry_of env ro)
      (List.filter (fun t => negb (excluded ro t)) tests) (results (run s)) /\
    failures_logged env log0 new /\
    Forall (fun e => loop_effect e = true) new /\
    let h := log0 ++ new ++ warning_part ro (excludedPendingCount s) in
    log s = h ++ snd (output_part env filename (run s) h) /\
    c = fst (output_part env filename (run s) h).
Proof.
  intros ro Hr.
  destruct (on_end_run env tests stats options date log0 Hr)
    as (sd & ed & v & c & s & new & Hs & He & G & Hv & _ & E & R & C & L & _ & Hc & Hl).
  destruct (on_end_run (with_fs never_throws env) tests stats options date log0 Hr)
    as (sd' & ed' & v' & c' & s' & new' & Hs' & He' & G' & Hv' & _ & E' & R' & C'
        & _ & _ & Hc' & _).
  fold ro in G, R, C, L, Hc, Hl, G', R', C', Hc'.
  assert (v' = v) by (change (getFilename env ro = Normal v') in G'; congruence).
  assert (sd' = sd) by congruence. assert (ed' = ed) by congruence. subst v' sd' ed'.
  assert (Hn : c' = Normal tt).
  { rewrite Hc'. unfold output_part. destruct (truthy v); reflexivity. }
  clear Hc'. rewrite Hn in E'.
  exists v, c, s, s', new.
  split; [exact G |]. split; [exact E |]. split; [exact E' |].
  split; [| split; [congruence |]].
  { rewrite R, R', entries_with_fs. reflexivity. }
  split; [rewrite R, results_with_results; apply entries_entry_of |].
  destruct L as (_ & A & B).
  split; [exact B |]. split; [exact A |].
  cbv zeta. split; [exact Hl | exact Hc].
Qed.

Lemma attachment_failures_are_logged_not_raised_witness :
  exists c s,
    on_end example_env_refusing [example_A; example_B] example_stats
      (options_with (VStr "results/out.trx") VUndefined VUndefined) example_date []
      = (c, Some s) /\
    map outcome (results (run s)) = ["passed"; "failed"]%string /\
    map resultFiles (results (run s)) = [Some [mkResultFile "a.png"]; None] /\
    log s =
      [StdoutWrite ("Creating directory for attachments " +:+ DQ +:+
                    "/work/results/out/In/uuid-0" +:+ DQ +:+ CRLF);
       MkdirSync "/work/results/out/In/uuid-0" true;
       StdoutWrite ("Error creating directory for attachments " +:+ DQ +:+
                    "/work/results/out/In/uuid-0" +:+ DQ +:+
                    ": Error: EROFS: read-only file system" +:+ CRLF);
       StdoutWrite ("Copy attachment " +:+ DQ +:+ "a.png" +:+ DQ +:+ " to " +:+ DQ +:+
                    "/work/results/out/In/uuid-0" +:+ DQ +:+ CRLF);
       CopyFileSync "/tmp/shots/a.png" "/work/results/out/In/uuid-0/a.png";
       StdoutWrite ("Error copying attachment from " +:+ DQ +:+ "/tmp/shots/a.png" +:+
                    DQ +:+ " to " +:+ DQ +:+ "/work/results/out/In/uuid-0/a.png" +:+
                    DQ +:+ ": " +:+ DQ +:+ "Error: EROFS: read-only file system" +:+
                    DQ +:+ CRLF);
       MkdirSync "results" true].
Proof.
  destruct (attachment_failures_are_logged_not_raised example_env_refusing
              [example_A; example_B] example_stats
              (options_with (VStr "results/out.trx") VUndefined VUndefined)
              example_date [])
    as (v & c & s & s' & new & _ & E & E' & R & _).
  - split; [now exists example_date |]. split; [now exists example_date |].
    right. now exists "results/out.trx"%string.
  - exists c, s. split; [exact E |]. rewrite R.
    vm_compute in E'. inversion E'; subst s'; clear E'.
    split; [reflexivity |]. split; [reflexivity |].
    pose proof E as E2. vm_compute in E2. inversion E2. reflexivity.
Defined.

(** ** The relocation of attachments *)

Lemma split_last_segment (c : ascii) (s : string) :
  exists init b, split c s = init ++ [b] /\ free_of c b = true /\
                 s = glue c init +:+ b.
Proof.
  induction s as [|x s (init & b & E & F & G)].
  - now exists [], EmptyString.
  - simpl. destruct (Ascii.eqb x c) eqn:X.
    + apply Ascii.eqb_eq in X. subst x.
      exists (EmptyString :: init), b. rewrite E. simpl. now rewrite <- G.
    + rewrite E. destruct init as [|h init]; simpl.
      * exists [], (String x b). simpl in *. unfold free_of in *. simpl.
        rewrite X, F. now subst s.
      * exists (String x h :: init), b. simpl in *. now rewrite G.
Qed.

Lemma base_name_last_segment (env : Env) (a : string) :
  exists init, a = glue (path_sep env) init +:+ base_name env a /\
               free_of (path_sep env) (base_name env a) = true.
Proof.
  destruct (split_last_segment (path_sep env) a) as (init & b & E & F & G).
  assert (base_name env a = b) as ->.
  { unfold base_name, attachment_name, pop. rewrite E, last_snoc. reflexivity. }
  now exists init.
Qed.

(** C2, as the claim states it, fails.  A pending test with an attachment
    that the loop excludes gets no Result Entry and no directory.  And the
    directory comes from removing the first [.trx] of the output path, which
    need not be its extension: for [a.trx.d/out.trx] it is
    [a.d/out.trx/In/...]. *)
Lemma attachments_relocated_counterexample :
  has_attachments example_P = true /\
  each_result example_env
    (mkReporterOptions (VStr "results/out.trx") (VBool true) VUndefined)
    (VStr "results/out.trx") example_P example_state
    = (Normal tt,
       mkRunState (run example_state) 1 (log example_state) (uuids example_state)) /\
  List.filter is_fs
    (log (snd (each_result example_env
                 (mkReporterOptions (VStr "a.trx.d/out.trx") VUndefined VUndefined)
                 (VStr "a.trx.d/out.trx") example_A example_state)))
    = [MkdirSync "/work/a.d/out.trx/In/uuid-0" true;
       CopyFileSync "/tmp/shots/a.png" "/work/a.d/out.trx/In/uuid-0/a.png"].
Proof. split; [reflexivity |]. split; vm_compute; reflexivity. Qed.

Lemma strip_trx_before_suffix (c : ascii) (x : string) :
  strip_prefix ".trx" (String c x) = None ->
  strip_prefix ".trx" (String c (x +:+ ".trx")) = None.
Proof.
  cbn [strip_prefix]. destruct (Ascii.eqb "." c); [| reflexivity].
  destruct x as [|c1 x]; [reflexivity |]. cbn [strip_prefix String.append].
  destruct (Ascii.eqb "t" c1); [| reflexivity].
  destruct x as [|c2 x]; [reflexivity |]. cbn [strip_prefix String.append].
  destruct (Ascii.eqb "r" c2); [| reflexivity].
  destruct x as [|c3 x]; [reflexivity |]. cbn [strip_prefix String.append].
  destruct (Ascii.eqb "x" c3); [discriminate | reflexivity].
Qed.

Lemma replace_trx_suffix (base : string) :
  find_first ".trx" base = None ->
  replace ".trx" "" (base +:+ ".trx") = base.
Proof.
  induction base as [|c x IH]; intros H; [reflexivity |].
  rewrite find_first_eq in H.
  destruct (strip_prefix ".trx" (String c x)) eqn:E; [discriminate |].
  destruct (find_first ".trx" x) eqn:F; [discriminate |].
  change (String c x +:+ ".trx") with (String c (x +:+ ".trx")).
  rewrite replace_eq, (strip_trx_before_suffix c x E).
  now rewrite IH.
Qed.

Lemma or_str_self (c : string) : or_str (Some c) "" = c.
Proof. unfold or_str. now destruct (String.eqb_spec c ""). Qed.

Lemma attachment_dir_trx (env : Env) (base d : string) :
  find_first ".trx" base = None ->
  attachment_dir env (base +:+ ".trx") d = path_join env [cwd env; base; "In"%string; d].
Proof.
  intros H. unfold attachment_dir. now rewrite or_str_self, replace_trx_suffix.
Qed.

Lemma truthy_trx (base : string) : truthy (VStr (base +:+ ".trx")) = true.
Proof. destruct base; reflexivity. Qed.

(** C2 (amended): for every test the loop does not exclude that has at
    least one attachment, when the output path is [base.trx] with no other
    [.trx] in it, the entry added to the report is the entry of the test
    with an execution identifier (its own when it has one, else a fresh
    one), a relative results directory (its own when it has one, else the
    identifier) and, appended to its file list, one reference per
    attachment holding the attachment's base name, the last segment of its
    path; the file-system calls are, in this order, the recursive creation
    of [join(cwd, base, In, directory)] and the copy of each attachment to
    its base name in that directory. *)
Theorem attachments_are_relocated (env : Env) (ro : ReporterOptions) (base : string)
    (t : Runnable) (s : RunState) (a : string) (atts : list string) :
  let f := base +:+ ".trx" in
  let r := testToTrx env t (computerName env) (cwd env) ro in
  let i := if truthy_str (executionId r) then default EmptyString (executionId r)
           else uuid_v4 env (uuids s) in
  let d := if truthy_str (relativeResultsDirectory r)
           then default EmptyString (relativeResultsDirectory r) else i in
  let dir := path_join env [cwd env; base; "In"%string; d] in
  find_first ".trx" base = None ->
  excluded ro t = false ->
  attachments t = Some (a :: atts) ->
  exists entry new,
    each_result env ro (VStr f) t s =
      (Normal tt,
       mkRunState (addResult entry (run s)) (excludedPendingCount s)
                  (log s ++ new) (uuids s + draws r)) /\
    entry_of env ro t entry /\
    executionId entry = Some i /\
    relativeResultsDirectory entry = Some d /\
    resultFiles entry =
      Some (default [] (resultFiles r) ++
            map (fun x => mkResultFile (base_name env x)) (a :: atts)) /\
    List.filter is_fs new =
      MkdirSync dir true ::
      map (fun x => CopyFileSync x (path_join env [dir; base_name env x])) (a :: atts) /\
    Forall (fun x => pop (split (path_sep env) x) = Some (base_name env x) /\
                     free_of (path_sep env) (base_name env x) = true /\
                     exists init, x = glue (path_sep env) init +:+ base_name env x)
           (a :: atts).
Proof.
  intros f r i d dir Hb Hx Ha.
  assert (Hr : truthy (VStr f) && has_attachments t = true).
  { unfold f, has_attachments. now rewrite truthy_trx, Ha. }
  destruct (each_result_relocating env ro f t s Hx Hr) as (new & E & L).
  cbv zeta in E, L. fold r in E, L. rewrite Ha in E, L. simpl in E, L.
  assert (Hi : chosen_id env (uuids s) r = i).
  { unfold chosen_id, i, truthy_str.
    destruct (executionId r) as [x|]; [| reflexivity].
    now destruct (String.eqb x ""). }
  assert (Hd : chosen_dir env (uuids s) r = d).
  { unfold chosen_dir, d, or_str, truthy_str. rewrite Hi.
    destruct (relativeResultsDirectory r) as [x|]; [| reflexivity].
    now destruct (String.eqb x ""). }
  exists (relocated env (uuids s) (a :: atts) r), new.
  split; [exact E |]. split; [apply entry_of_relocated |].
  split; [simpl; now rewrite Hi |]. split; [simpl; now rewrite Hd |].
  split; [reflexivity |]. split.
  - destruct L as (F & _). rewrite F. unfold relocation_calls, f.
    rewrite Hd, attachment_dir_trx by assumption. reflexivity.
  - apply Forall_forall. intros x _. split; [apply attachment_name_Some |].
    destruct (base_name_last_segment env x) as (init & G & F). eauto.
Qed.

Lemma attachments_are_relocated_witness :
  exists entry new,
    each_result example_env
      (mkReporterOptions (VStr "results/out.trx") VUndefined VUndefined)
      (VStr "results/out.trx") example_A example_state
      = (Normal tt,
         mkRunState (addResult entry (run example_state)) 0 new 1) /\
    executionId entry = Some "uuid-0"%string /\
    resultFiles entry = Some [mkResultFile "a.png"] /\
    List.filter is_fs new =
      [MkdirSync "/work/results/out/In/uuid-0" true;
       CopyFileSync "/tmp/shots/a.png" "/work/results/out/In/uuid-0/a.png"].
Proof.
  destruct (attachments_are_relocated example_env
              (mkReporterOptions (VStr "results/out.trx") VUndefined VUndefined)
              "results/out" example_A example_state "/tmp/shots/a.png" []
              eq_refl eq_refl eq_refl)
    as (entry & new & E & _ & I & _ & R & F & _).
  exists entry, new. split; [exact E |]. split; [exact I |].
  split; [exact R | exact F].
Defined.

(** ** The token of the output path *)

Lemma append_inj_length (a a' x y : string) :
  a +:+ x = a' +:+ y -> String.length a = String.length a' -> a = a' /\ x = y.
Proof.
  revert a'; induction a as [|c a IH]; intros [|c' a'] H L; simpl in *;
    try discriminate; [now split |].
  inversion H; subst. destruct (IH a' H2) as [-> ->]; [lia | now split].
Qed.

(** A decomposition at the leftmost occurrence is the one [find_first]
    finds. *)
Lemma find_first_leftmost (pat a b : string) :
  (forall a' b', a +:+ pat +:+ b = a' +:+ pat +:+ b' ->
                 (String.length a <= String.length a')%nat) ->
  find_first pat (a +:+ pat +:+ b) = Some (String.length a).
Proof.
  intros H.
  destruct (find_first_complete pat a b) as [i Hi].
  destruct (find_first_replace pat "" _ i Hi) as (a0 & b0 & E & L & _).
  pose proof (find_first_least pat _ i Hi a b eq_refl) as Hle.
  pose proof (H a0 b0 E) as Hge.
  rewrite Hi. f_equal. lia.
Qed.

Lemma replace_first_occurrence (pat rep a b : string) :
  (forall a' b', a +:+ pat +:+ b = a' +:+ pat +:+ b' ->
                 (String.length a <= String.length a')%nat) ->
  replace pat rep (a +:+ pat +:+ b) = a +:+ rep +:+ b.
Proof.
  intros H.
  pose proof (find_first_leftmost pat a b H) as F.
  destruct (find_first_replace pat rep _ _ F) as (a0 & b0 & E & L & R).
  destruct (append_inj_length a a0 _ _ E (eq_sym L)) as [<- E'].
  destruct (append_inj_length pat pat _ _ E' eq_refl) as [_ <-].
  exact R.
Qed.

Lemma replace_skips (pat' rep : string) (p0 : ascii) (t y : string) :
  free_of p0 t = true ->
  replace (String p0 pat') rep (t +:+ y) = t +:+ replace (String p0 pat') rep y.
Proof.
  induction t as [|c t IH]; intros H; [reflexivity |].
  unfold free_of in H. simpl in H. apply andb_true_iff in H as [Hc Ht].
  change (String c t +:+ y) with (String c (t +:+ y)).
  rewrite replace_eq. cbn [strip_prefix].
  rewrite Ascii.eqb_sym. apply negb_true_iff in Hc. rewrite Hc.
  simpl. now rewrite IH.
Qed.

Lemma strip_prefix_before_token (pat x tok' y rest : string) (t0 : ascii) :
  free_of t0 pat = true ->
  strip_prefix pat (x +:+ String t0 tok' +:+ y) = Some rest ->
  exists x', x = pat +:+ x' /\ rest = x' +:+ String t0 tok' +:+ y.
Proof.
  revert x; induction pat as [|c pat IH]; intros x F H.
  - simpl in H. inversion H. now exists x.
  - unfold free_of in F. simpl in F. apply andb_true_iff in F as [Fc Fp].
    apply negb_true_iff in Fc.
    destruct x as [|d x]; simpl in H.
    + now rewrite Fc in H.
    + destruct (Ascii.eqb_spec c d) as [->|]; [| discriminate].
      destruct (IH x Fp H) as (x' & -> & ->). now exists x'.
Qed.

(** Replacing the first [pat] keeps an occurrence of a token that shares
    neither its first character with [pat] nor [pat]'s first character. *)
Lemma replace_keeps_token (pat' tok' rep : string) (p0 t0 : ascii) (x y : string) :
  free_of t0 (String p0 pat') = true ->
  free_of p0 (String t0 tok') = true ->
  exists x' y',
    replace (String p0 pat') rep (x +:+ String t0 tok' +:+ y) =
    x' +:+ String t0 tok' +:+ y'.
Proof.
  intros Fp Ft. induction x as [|c x IH].
  - exists EmptyString, (replace (String p0 pat') rep y).
    change (EmptyString +:+ String t0 tok' +:+ y) with (String t0 tok' +:+ y).
    now rewrite (replace_skips pat' rep p0 (String t0 tok') y Ft).
  - rewrite replace_eq.
    destruct (strip_prefix (String p0 pat') (String c x +:+ String t0 tok' +:+ y))
      as [rest|] eqn:E.
    + destruct (strip_prefix_before_token _ _ _ _ _ _ Fp E) as (x' & _ & ->).
      exists (rep +:+ x'), y. now rewrite append_assoc.
    + destruct IH as (x' & y' & IH).
      change (String c x +:+ String t0 tok' +:+ y)
        with (String c (x +:+ String t0 tok' +:+ y)).
      cbv beta iota. rewrite IH. now exists (String c x'), y'.
Qed.

Lemma Forall_of_filter {A : Type} (P : A -> Prop) (f : A -> bool) (l : list A) :
  (forall x, f x = false -> P x) ->
  Forall P (List.filter f l) -> Forall P l.
Proof.
  intros H. induction l as [|x l IH]; intros F; [constructor |].
  simpl in F. destruct (f x) eqn:E.
  - inversion F; subst. constructor; auto.
  - constructor; auto.
Qed.

Lemma relocation_calls_use_path (env : Env) (F d : string) (atts : list string) :
  Forall (uses_path env F) (relocation_calls env F d atts).
Proof.
  unfold relocation_calls. constructor.
  - right. now exists d.
  - apply Forall_forall. intros e He. apply list_elem_of_In, in_map_iff in He.
    destruct He as (a & <- & _). simpl. eauto.
Qed.

Lemma loop_calls_use_path (env : Env) (ro : ReporterOptions) (F : string) (k : nat)
    (tests : list Runnable) :
  Forall (uses_path env F) (loop_calls env ro (VStr F) k tests).
Proof.
  revert k; induction tests as [|t ts IH]; intros k; [constructor |].
  cbn [loop_calls filename_text].
  destruct (excluded ro t); [apply IH |].
  destruct (truthy (VStr F) && has_attachments t); [| apply IH].
  apply Forall_app. split; [apply relocation_calls_use_path | apply IH].
Qed.

(** C9: when the resolved path holds the token more than once, [getFilename]
    replaces the occurrence that comes first and leaves the text after it as
    it is, so every later occurrence is still in the file name; that file
    name is the one [writeFileSync] is given, the one whose parent directory
    is created, and the one every attachment directory is joined from, and
    removing [.trx] from it for those directories keeps the token. *)
Theorem only_first_hash_is_substituted (env : Env) (ro : ReporterOptions)
    (a b : string) :
  let hex := toString_hex (randomBytes env 16) in
  let F := a +:+ hex +:+ b in
  resolved_path env ro = VStr (a +:+ "[hash]" +:+ b) ->
  (forall a' b', a +:+ "[hash]" +:+ b = a' +:+ "[hash]" +:+ b' ->
                 (String.length a <= String.length a')%nat) ->
  getFilename env ro = Normal (VStr F) /\
  (forall b1 b2, b = b1 +:+ "[hash]" +:+ b2 ->
     F = (a +:+ hex +:+ b1) +:+ "[hash]" +:+ b2 /\
     exists x y, replace ".trx" "" F = x +:+ "[hash]" +:+ y) /\
  (forall tests stats options date log0,
     default no_reporterOptions (reporterOptions options) = ro ->
     is_Some (stats_start stats) -> is_Some (stats_end stats) ->
     exists c s new,
       on_end env tests stats options date log0 = (c, Some s) /\
       log s = log0 ++ new /\
       Forall (uses_path env F) new).
Proof.
  intros hex F Hp Hfirst.
  assert (G : getFilename env ro = Normal (VStr F)).
  { rewrite (getFilename_string env ro _ Hp). do 2 f_equal.
    destruct (find_first_complete "[hash]" a b) as [i Hi].
    unfold substitute_hash.
    destruct (indexOf (a +:+ "[hash]" +:+ b) "[hash]" =? -1) eqn:E.
    - apply indexOf_absent in E. congruence.
    - now apply replace_first_occurrence. }
  split; [exact G |]. split.
  - intros b1 b2 ->.
    assert (HF : F = (a +:+ hex +:+ b1) +:+ "[hash]" +:+ b2)
      by (unfold F; now rewrite !append_assoc).
    split; [exact HF |]. rewrite HF.
    apply (replace_keeps_token "trx" "hash]" "" "." "["); reflexivity.
  - intros tests stats options date log0 Hro Hs He.
    assert (Hr : reaches_loop stats options).
    { split; [assumption |]. split; [assumption |]. rewrite Hro.
      unfold resolved_path, js_or in Hp.
      destruct (truthy (output ro)) eqn:T; [right; eauto | now left]. }
    destruct (on_end_run env tests stats options date log0 Hr)
      as (sd & ed & v & c & s & new & _ & _ & G' & _ & _ & E & _ & _ & L & _ & _ & Hl).
    rewrite Hro in *. assert (v = VStr F) by congruence. subst v.
    exists c, s. eexists. split; [exact E |].
    split; [rewrite Hl, <- !app_assoc; reflexivity |].
    apply Forall_app. split; [| apply Forall_app; split].
    + destruct L as (Lf & _).
      apply (Forall_of_filter _ is_fs); [now intros [] |].
      rewrite Lf. apply loop_calls_use_path.
    + unfold warning_part.
      destruct (strict_true (warnExcludedPending ro) && _); repeat constructor.
    + unfold output_part.
      destruct (truthy (VStr F)); [| repeat constructor].
      simpl. destruct (fs_throws env _ _); repeat constructor; now left.
Qed.

Lemma only_first_hash_is_substituted_witness :
  getFilename example_env
    (mkReporterOptions (VStr "out/[hash]/[hash].trx") VUndefined VUndefined)
  = Normal (VStr "out/031425364758697a8b9cadbecfe0f100/[hash].trx").
Proof.
  destruct (only_first_hash_is_substituted example_env
              (mkReporterOptions (VStr "out/[hash]/[hash].trx") VUndefined VUndefined)
              "out/" "/[hash].trx" eq_refl) as (G & _).
  - intros a' b' E.
    exact (find_first_least "[hash]" "out/[hash]/[hash].trx" 4 eq_refl a' b' E).
  - exact G.
Defined.

(** ** The run name *)

Lemma pad_digits (w bound n : nat) :
  forallb (fun k => digits w (pad w k)) (seq 0 bound) = true ->
  (n < bound)%nat -> digits w (pad w n) = true.
Proof.
  intros H Hn. rewrite forallb_forall in H. apply H, in_seq. lia.
Qed.

Lemma pad2_digits (n : nat) : (n < 100)%nat -> digits 2 (pad 2 n) = true.
Proof. apply pad_digits. vm_compute. reflexivity. Qed.

Lemma pad4_digits (n : nat) : (n < 100 * 100)%nat -> digits 4 (pad 4 n) = true.
Proof. apply pad_digits. vm_compute. reflexivity. Qed.

Lemma free_of_append (c : ascii) (a b : string) :
  free_of c (a +:+ b) = free_of c a && free_of c b.
Proof.
  unfold free_of. induction a as [|x a IH]; simpl; [reflexivity |].
  now rewrite IH, andb_assoc.
Qed.

Lemma free_of_single (c x : ascii) :
  free_of c (String x "") = negb (Ascii.eqb x c).
Proof. unfold free_of. cbn [string_forall]. apply andb_true_r. Qed.

Lemma digit_not (c x : ascii) :
  is_digit c = false -> is_digit x = true -> negb (Ascii.eqb x c) = true.
Proof.
  intros Hc Hx. destruct (Ascii.eqb_spec x c) as [->|]; [congruence | reflexivity].
Qed.

Lemma digits_free_of (c : ascii) (w : nat) (s : string) :
  is_digit c = false -> digits w s = true -> free_of c s = true.
Proof.
  intros Hc H. unfold digits in H. apply andb_true_iff in H as [_ H].
  unfold free_of. induction s as [|x s IH]; simpl in *; [reflexivity |].
  apply andb_true_iff in H as [Hx Hs].
  now rewrite (digit_not c x Hc Hx), IH.
Qed.

Lemma find_first_char (c : ascii) (a b : string) :
  free_of c a = true ->
  find_first (String c "") (a +:+ String c b) = Some (String.length a).
Proof.
  unfold free_of. induction a as [|x a IH]; intros H.
  - simpl. now rewrite Ascii.eqb_refl.
  - simpl in H. apply andb_true_iff in H as [Hx Ha].
    apply negb_true_iff in Hx. rewrite Ascii.eqb_sym in Hx.
    change (String x a +:+ String c b) with (String x (a +:+ String c b)).
    rewrite find_first_eq. cbn [strip_prefix]. rewrite Hx.
    now rewrite (IH Ha).
Qed.

Lemma replace_char (c : ascii) (rep a b : string) :
  free_of c a = true ->
  replace (String c "") rep (a +:+ String c b) = a +:+ rep +:+ b.
Proof.
  unfold free_of. induction a as [|x a IH]; intros H.
  - simpl. now rewrite Ascii.eqb_refl.
  - simpl in H. apply andb_true_iff in H as [Hx Ha].
    apply negb_true_iff in Hx. rewrite Ascii.eqb_sym in Hx.
    change (String x a +:+ String c b) with (String x (a +:+ String c b)).
    rewrite replace_eq. cbn [strip_prefix]. rewrite Hx.
    now rewrite (IH Ha).
Qed.

Lemma substring_0_length (a b : string) :
  String.substring 0 (String.length a) (a +:+ b) = a.
Proof.
  induction a as [|x a IH]; simpl.
  - now destruct b.
  - now rewrite IH.
Qed.

Lemma substring_prefix (a b : string) :
  substring 0 (Z.of_nat (String.length a)) (a +:+ b) = a.
Proof.
  unfold substring. rewrite length_append. cbv zeta.
  set (la := String.length a). set (lb := String.length b).
  replace (Z.min (Z.max 0 0) (Z.of_nat (la + lb))) with 0 by lia.
  replace (Z.min (Z.max (Z.of_nat la) 0) (Z.of_nat (la + lb)))
    with (Z.of_nat la) by lia.
  replace (Z.min 0 (Z.of_nat la)) with 0 by lia.
  replace (Z.max 0 (Z.of_nat la)) with (Z.of_nat la) by lia.
  rewrite Z.sub_0_r, Nat2Z.id. apply substring_0_length.
Qed.

(** The text [testRunName] builds for a date whose year has four digits. *)
Lemma testRunName_format (env : Env) (d : Date) :
  let Y := pad 4 (Z.to_nat (year d)) in
  let Mo := pad 2 (month d) in
  let D := pad 2 (day d) in
  let h := pad 2 (hours d) in
  let mi := pad 2 (minutes d) in
  let sec := pad 2 (seconds d) in
  valid_date d ->
  0 <= year d <= 9999 ->
  testRunName env (toISOString d) =
    userName env +:+ "@" +:+ computerName env +:+ " " +:+
    Y +:+ "-" +:+ Mo +:+ "-" +:+ D +:+ " " +:+ h +:+ ":" +:+ mi +:+ ":" +:+ sec /\
  digits 4 Y = true /\ digits 2 Mo = true /\ digits 2 D = true /\
  digits 2 h = true /\ digits 2 mi = true /\ digits 2 sec = true.
Proof.
  intros Y Mo D h mi sec (Hmo & Hd & Hh & Hmi & Hs & Hms) Hy.
  assert (HY : digits 4 Y = true) by (apply pad4_digits; lia).
  assert (HMo : digits 2 Mo = true) by (apply pad2_digits; lia).
  assert (HD : digits 2 D = true) by (apply pad2_digits; lia).
  assert (Hh' : digits 2 h = true) by (apply pad2_digits; lia).
  assert (Hmi' : digits 2 mi = true) by (apply pad2_digits; lia).
  assert (Hs' : digits 2 sec = true) by (apply pad2_digits; lia).
  split; [| repeat split; assumption].
  set (dt := Y +:+ "-" +:+ Mo +:+ "-" +:+ D).
  set (tm := h +:+ ":" +:+ mi +:+ ":" +:+ sec).
  assert (Hnow : toISOString d =
                 (dt +:+ "T" +:+ tm) +:+ "." +:+ pad 3 (milliseconds d) +:+ "Z").
  { unfold toISOString, iso_year, dt, tm.
    replace ((0 <=? year d) && (year d <=? 9999)) with true
      by (symmetry; apply andb_true_iff; split; apply Z.leb_le; lia).
    fold Y Mo D h mi sec. now rewrite !append_assoc. }
  assert (Fdt : forall c, is_digit c = false -> Ascii.eqb "-" c = false ->
                          free_of c dt = true).
  { intros c Hc Hm. unfold dt. rewrite !free_of_append.
    rewrite (digits_free_of c 4 Y), (digits_free_of c 2 Mo), (digits_free_of c 2 D)
      by assumption.
    rewrite !free_of_single, Hm. reflexivity. }
  assert (Ftm : forall c, is_digit c = false -> Ascii.eqb ":" c = false ->
                          free_of c tm = true).
  { intros c Hc Hm. unfold tm. rewrite !free_of_append.
    rewrite (digits_free_of c 2 h), (digits_free_of c 2 mi), (digits_free_of c 2 sec)
      by assumption.
    rewrite !free_of_single, Hm. reflexivity. }
  assert (Fdot : free_of "." (dt +:+ "T" +:+ tm) = true).
  { rewrite !free_of_append, Fdt, Ftm by reflexivity. reflexivity. }
  unfold testRunName. rewrite Hnow. unfold indexOf.
  change ("." +:+ pad 3 (milliseconds d) +:+ "Z")
    with (String "." (pad 3 (milliseconds d) +:+ "Z")).
  rewrite (find_first_char "." _ _ Fdot), substring_prefix.
  change ("T" +:+ tm) with (String "T" tm).
  rewrite (replace_char "T" " " dt tm) by (apply Fdt; reflexivity).
  unfold dt, tm. now rewrite !append_assoc.
Qed.

Lemma not_string_or_falsy (env : Env) (ro : ReporterOptions) :
  ~ string_or_falsy (output ro) ->
  getFilename env ro = Throw "TypeError: filePath.indexOf is not a function".
Proof.
  intros H.
  assert (T : truthy (output ro) = true).
  { destruct (truthy (output ro)) eqn:T; [reflexivity |]. destruct H. now left. }
  unfold getFilename, js_or. rewrite T, T.
  destruct (output ro) as [| |b|n|s]; try reflexivity.
  destruct H. right. now exists s.
Qed.

Lemma string_or_falsy_dec (v : JsVal) : string_or_falsy v \/ ~ string_or_falsy v.
Proof.
  destruct (truthy v) eqn:T; [| left; now left].
  destruct v as [| |b|n|s]; try (left; right; eauto; fail);
    right; intros [H|[f H]]; congruence.
Qed.

(** C8: whenever the run statistics carry both dates, the report document
    exists and its name is the user name, an at sign, the host name, a blank
    and, for a clock whose year has four digits, the timestamp
    [YYYY-MM-DD HH:MM:SS] of that clock: four, two and two digits, a blank,
    and two, two and two digits, with neither a fraction of the second nor a
    time zone.  What the handler serializes is that document. *)
Theorem run_name_format (env : Env) (tests : list Runnable) (stats : Stats)
    (options : Options) (date : Date) (log0 : list Effect) :
  let Y := pad 4 (Z.to_nat (year date)) in
  let Mo := pad 2 (month date) in
  let D := pad 2 (day date) in
  let h := pad 2 (hours date) in
  let mi := pad 2 (minutes date) in
  let sec := pad 2 (seconds date) in
  is_Some (stats_start stats) ->
  is_Some (stats_end stats) ->
  valid_date date ->
  0 <= year date <= 9999 ->
  exists c s new,
    on_end env tests stats options date log0 = (c, Some s) /\
    log s = log0 ++ new /\
    name (run s) =
      userName env +:+ "@" +:+ computerName env +:+ " " +:+
      Y +:+ "-" +:+ Mo +:+ "-" +:+ D +:+ " " +:+ h +:+ ":" +:+ mi +:+ ":" +:+ sec /\
    digits 4 Y = true /\ digits 2 Mo = true /\ digits 2 D = true /\
    digits 2 h = true /\ digits 2 mi = true /\ digits 2 sec = true /\
    (forall xml, In (ToXml xml) new -> xml = toXml env (run s)).
Proof.
  intros Y Mo D h mi sec [sd Hs] [ed He] Hvalid Hy.
  destruct (testRunName_format env date Hvalid Hy) as (N & HY & HMo & HD & Hh & Hmi & Hsec).
  fold Y Mo D h mi sec in N, HY, HMo, HD, Hh, Hmi, Hsec.
  set (ro := default no_reporterOptions (reporterOptions options)).
  destruct (string_or_falsy_dec (output ro)) as [Ho|Ho].
  - assert (Hr : reaches_loop stats options).
    { split; [now exists sd |]. split; [now exists ed | exact Ho]. }
    destruct (on_end_run env tests stats options date log0 Hr)
      as (sd' & ed' & v & c & s & new & _ & _ & _ & _ & _ & E & R & _ & L & _ & _ & Hl).
    fold ro in R, L, Hl.
    destruct (loop_adds_no_warning _ _ _ _ L) as [_ X].
    destruct (warning_part_plain ro (excludedPendingCount s)) as (X' & _ & _).
    exists c, s. eexists. split; [exact E |].
    split; [rewrite Hl, <- !app_assoc; reflexivity |].
    split; [rewrite R; exact N |].
    repeat (split; [assumption |]).
    intros xml Hin.
    assert (Hf : In (ToXml xml)
                   (List.filter is_toXml
                      (new ++ warning_part ro (excludedPendingCount s) ++
                       snd (output_part env v (run s)
                              (log0 ++ new ++ warning_part ro (excludedPendingCount s))))))
      by (apply filter_In; now split).
    rewrite !List.filter_app, X, X' in Hf. simpl in Hf.
    unfold output_part in Hf. destruct (truthy v).
    + destruct (fs_throws env _ _); simpl in Hf.
      * destruct Hf.
      * destruct Hf as [Hf|[]]. now inversion Hf.
    + simpl in Hf. destruct Hf as [Hf|[]]. now inversion Hf.
  - exists (Throw "TypeError: filePath.indexOf is not a function"),
           (mkRunState (new_TestRun env (toISOString date) sd ed) O log0 O), [].
    split.
    + unfold on_end. rewrite Hs, He. fold ro. now rewrite (not_string_or_falsy env ro Ho).
    + split; [simpl; now rewrite app_nil_r |]. split; [exact N |].
      repeat (split; [assumption |]). intros xml [].
Qed.

Lemma run_name_format_witness :
  exists c s,
    on_end example_env [example_A; example_B] example_stats
      (options_with VUndefined VUndefined VUndefined) example_date []
      = (c, Some s) /\
    name (run s) = "ci@build-host 2026-11-03 07:00:05"%string /\
    In (ToXml (example_toXml (run s))) (log s).
Proof.
  destruct (run_name_format example_env [example_A; example_B] example_stats
              (options_with VUndefined VUndefined VUndefined) example_date [])
    as (c & s & new & E & L & N & _).
  - now exists example_date.
  - now exists example_date.
  - unfold valid_date. simpl. lia.
  - simpl. lia.
  - exists c, s. split; [exact E |]. split; [exact N |].
    pose proof E as E'. vm_compute in E'. inversion E'. simpl. tauto.
Defined.

(** ** The decimal rendering *)

(** The fuel [decimal] gives is enough: more fuel changes nothing. *)
Lemma decimal_aux_fuel (fuel fuel' n : nat) (acc : string) :
  (n < fuel)%nat -> (n < fuel')%nat ->
  decimal_aux fuel n acc = decimal_aux fuel' n acc.
Proof.
  revert fuel' n acc; induction fuel as [|f IH]; intros fuel' n acc H H'; [lia |].
  destruct fuel' as [|f']; [lia |]. cbn [decimal_aux].
  destruct (Nat.ltb_spec n 10) as [|Hn]; [reflexivity |].
  assert (n / 10 < n)%nat by (apply Nat.div_lt; lia).
  apply IH; lia.
Qed.

Lemma decimal_step (n : nat) :
  decimal n =
  if Nat.ltb n 10 then String (digit n) EmptyString
  else decimal (n / 10) +:+ String (digit n) EmptyString.
Proof.
  assert (G : forall fuel m acc, (m < fuel)%nat ->
            decimal_aux fuel m acc = decimal_aux fuel m EmptyString +:+ acc).
  { induction fuel as [|f IH]; intros m acc Hm; [lia |]. cbn [decimal_aux].
    destruct (Nat.ltb_spec m 10) as [|H10]; [reflexivity |].
    assert (m / 10 < m)%nat by (apply Nat.div_lt; lia).
    rewrite (IH (m / 10)%nat (String (digit m) acc)) by lia.
    rewrite (IH (m / 10)%nat (String (digit m) EmptyString)) by lia.
    now rewrite append_assoc. }
  unfold decimal. cbn [decimal_aux].
  destruct (Nat.ltb_spec n 10) as [|H10]; [reflexivity |].
  assert (n / 10 < n)%nat by (apply Nat.div_lt; lia).
  rewrite G by lia.
  now rewrite (decimal_aux_fuel n (S (n / 10)) (n / 10)) by lia.
Qed.

Example decimal_examples :
  decimal 0 = "0"%string /\ decimal 7 = "7"%string /\ decimal 10 = "10"%string /\
  decimal 2026 = "2026"%string /\ pad 2 5 = "05"%string /\ pad 3 42 = "042"%string.
Proof. repeat split. Qed.

(** * Further properties of the handlers *)

(** ** The reporter over a run of events *)

Lemma evolves_refl (x : Runnable) : evolves x x.
Proof. repeat split. Qed.

Lemma evolves_trans (x y z : Runnable) : evolves x y -> evolves y z -> evolves x z.
Proof.
  intros (A1 & A2 & A3 & A4 & A5 & A6) (B1 & B2 & B3 & B4 & B5 & B6).
  repeat split; try congruence.
  intros H. rewrite B6; [now apply A6 |]. now rewrite A6.
Qed.

Lemma store_evolves_refl (st : Reporter) : store_evolves st st.
Proof. intros i. destruct (objects st !! i); [apply evolves_refl | exact I]. Qed.

Lemma store_evolves_same (st st' : Reporter) :
  objects st' = objects st -> store_evolves st st'.
Proof.
  intros E i. rewrite E. destruct (objects st !! i); [apply evolves_refl | exact I].
Qed.

Lemma store_evolves_trans (a b c : Reporter) :
  store_evolves a b -> store_evolves b c -> store_evolves a c.
Proof.
  intros H1 H2 i. specialize (H1 i). specialize (H2 i).
  destruct (objects a !! i), (objects b !! i), (objects c !! i);
    try contradiction; try exact I.
  eapply evolves_trans; eauto.
Qed.

Lemma store_evolves_alter (f : Runnable -> Runnable) (t : nat) (st st' : Reporter) :
  (forall x, evolves x (f x)) ->
  objects st' = alter f t (objects st) ->
  store_evolves st st'.
Proof.
  intros Hf E i. rewrite E, lookup_alter.
  destruct (decide (t = i)) as [->|]; destruct (objects st !! i);
    simpl; auto using evolves_refl.
Qed.

Lemma evolves_not_executed (m : string) (k : option string) (x : Runnable) :
  unresolved x = true -> evolves x (not_executed m k x).
Proof.
  intros _. unfold not_executed. repeat split. simpl.
  intros H. now rewrite H.
Qed.

Lemma set_add_NoDup (x : nat) (s : list nat) : NoDup s -> NoDup (set_add x s).
Proof.
  intros H. unfold set_add. destruct (decide (x ∈ s)); [assumption |].
  apply NoDup_app. split; [assumption |]. split.
  - intros y Hy Hy'. apply list_elem_of_singleton in Hy'. now subst.
  - apply NoDup_singleton.
Qed.

(** What one call of the ['suite end'] callback can do to the state. *)
Lemma mark_not_executed_step (hook : nat) (suite : Suite) (t : nat)
    (st st' : Reporter) :
  mark_not_executed hook suite t st = Normal st' ->
  failedHook st' = failedHook st /\
  (NoDup (tests st) -> NoDup (tests st')) /\
  (exists extra, tests st' = tests st ++ extra) /\
  store_evolves st st'.
Proof.
  unfold mark_not_executed. intros H.
  destruct (objects st !! t) as [x|] eqn:Hx.
  - fold (unresolved x) in H. destruct (unresolved x) eqn:Hu.
    + destruct (objects st !! hook) as [h|]; [| discriminate].
      destruct (err h) as [e|]; [| discriminate].
      inversion H; subst; clear H. simpl.
      split; [reflexivity |]. split; [apply set_add_NoDup |].
      split; [apply set_add_extends |].
      intros i. cbn [objects]. destruct (decide (i = t)) as [->|Hne].
      * rewrite lookup_insert_eq, Hx.
        unfold evolves, set_err, set_state.
        destruct (truthy_str (state x)) eqn:T; simpl; rewrite ?T; simpl;
          repeat split; intros; congruence.
      * rewrite lookup_insert_ne by congruence.
        destruct (objects st !! i); [apply evolves_refl | exact I].
    + inversion H; subst.
      split; [reflexivity |]. split; [auto |].
      split; [exists []; now rewrite app_nil_r | apply store_evolves_refl].
  - inversion H; subst.
    split; [reflexivity |]. split; [auto |].
    split; [exists []; now rewrite app_nil_r | apply store_evolves_refl].
Qed.

Lemma each_test_step (hook : nat) (suite : Suite) (ts : list nat)
    (st st' : Reporter) :
  each_test hook suite ts st = Normal st' ->
  failedHook st' = failedHook st /\
  (NoDup (tests st) -> NoDup (tests st')) /\
  (exists extra, tests st' = tests st ++ extra) /\
  store_evolves st st'.
Proof.
  revert st; induction ts as [|t ts IH]; intros st H; simpl in H.
  - inversion H; subst.
    split; [reflexivity |]. split; [auto |].
    split; [exists []; now rewrite app_nil_r | apply store_evolves_refl].
  - destruct (mark_not_executed hook suite t st) as [st1|] eqn:E; [| discriminate].
    destruct (mark_not_executed_step _ _ _ _ _ E) as (F1 & N1 & [x1 X1] & S1).
    destruct (IH st1 H) as (F2 & N2 & [x2 X2] & S2).
    split; [congruence |]. split; [auto |]. split.
    + exists (x1 ++ x2). rewrite X2, X1. now rewrite <- app_assoc.
    + eapply store_evolves_trans; eauto.
Qed.

(** What one handler can do to the state. *)
Lemma handle_step (ev : Event) (st st' : Reporter) :
  handle ev st = Normal st' ->
  (NoDup (tests st) -> NoDup (tests st')) /\
  (exists extra, tests st' = tests st ++ extra) /\
  store_evolves st st' /\
  (marker_is_hook st -> marker_is_hook st').
Proof.
  assert (Keep : forall a b, store_evolves a b -> failedHook b = failedHook a ->
                             marker_is_hook a -> marker_is_hook b).
  { intros a b S F M h Hh. rewrite F in Hh. destruct (M h Hh) as (x & Hx & Ty).
    specialize (S h). rewrite Hx in S.
    destruct (objects b !! h) as [y|]; [| contradiction].
    exists y. split; [reflexivity |]. destruct S as (T & _). congruence. }
  destruct ev as [now t|now t|f|suite]; simpl; intros H.
  - inversion H; subst; clear H.
    assert (S : store_evolves st (on_test now t st)).
    { apply (store_evolves_alter (set_start now) t); [| reflexivity].
      intros x. repeat split. }
    split; [auto |]. split; [exists []; simpl; now rewrite app_nil_r |].
    split; [exact S |]. now apply Keep.
  - inversion H; subst; clear H.
    assert (S : store_evolves st (on_test_end now t st)).
    { apply (store_evolves_alter (set_end now) t); [| reflexivity].
      intros x. repeat split. }
    split; [apply set_add_NoDup |]. split; [apply set_add_extends |].
    split; [exact S |]. now apply Keep.
  - inversion H; subst; clear H. unfold on_fail.
    destruct (objects st !! f) as [x|] eqn:Hx.
    + destruct (String.eqb_spec (type x) "hook") as [Ty|Ty].
      * split; [auto |]. split; [exists []; simpl; now rewrite app_nil_r |].
        split; [now apply store_evolves_same |].
        intros _ h Hh. simpl in Hh. inversion Hh; subst. now exists x.
      * split; [auto |]. split; [exists []; now rewrite app_nil_r |].
        split; [apply store_evolves_refl | auto].
    + split; [auto |]. split; [exists []; now rewrite app_nil_r |].
      split; [apply store_evolves_refl | auto].
  - unfold on_suite_end in H.
    destruct (failedHook st) as [hook|] eqn:Hf.
    + destruct (objects st !! hook) as [h|] eqn:Hh.
      * destruct (Nat.eqb (parent h) (suite_id suite)).
        -- destruct (each_test hook suite (eachTest suite) st) as [st1|] eqn:E;
             [| discriminate].
           destruct (each_test_step _ _ _ _ _ E) as (F1 & N1 & X1 & S1).
           inversion H; subst; clear H. simpl.
           split; [exact N1 |]. split; [exact X1 |]. split; [exact S1 |].
           intros _ k Hk. discriminate.
        -- inversion H; subst.
           split; [auto |]. split; [exists []; now rewrite app_nil_r |].
           split; [apply store_evolves_refl | auto].
      * inversion H; subst.
        split; [auto |]. split; [exists []; now rewrite app_nil_r |].
        split; [apply store_evolves_refl | auto].
    + inversion H; subst.
      split; [auto |]. split; [exists []; now rewrite app_nil_r |].
      split; [apply store_evolves_refl | auto].
Qed.

Lemma handle_all_step (evs : list Event) (st st' : Reporter) :
  handle_all evs st = Normal st' ->
  (NoDup (tests st) -> NoDup (tests st')) /\
  (exists extra, tests st' = tests st ++ extra) /\
  store_evolves st st' /\
  (marker_is_hook st -> marker_is_hook st').
Proof.
  revert st; induction evs as [|ev evs IH]; intros st H; simpl in H.
  - inversion H; subst.
    split; [auto |]. split; [exists []; now rewrite app_nil_r |].
    split; [apply store_evolves_refl | auto].
  - destruct (handle ev st) as [st1|] eqn:E; [| discriminate].
    destruct (handle_step _ _ _ E) as (N1 & [x1 X1] & S1 & M1).
    destruct (IH st1 H) as (N2 & [x2 X2] & S2 & M2).
    split; [auto |]. split; [| split; [| auto]].
    + exists (x1 ++ x2). rewrite X2, X1. now rewrite <- app_assoc.
    + eapply store_evolves_trans; eauto.
Qed.

(** X1: over any run of events that no handler throws out of, the
    accumulation set stays free of duplicates, keeps its members in their
    order and only grows at its end, and holds every test whose ['test end']
    was among the events. *)
Theorem accumulation_set_only_grows (evs : list Event) (st st' : Reporter) :
  handle_all evs st = Normal st' ->
  NoDup (tests st) ->
  NoDup (tests st') /\
  (exists extra, tests st' = tests st ++ extra) /\
  (forall now t, In (TestEnd now t) evs -> t ∈ tests st').
Proof.
  intros H N.
  destruct (handle_all_step evs st st' H) as (N' & X & _).
  split; [auto |]. split; [exact X |].
  clear N N' X. revert st H; induction evs as [|ev evs IH]; intros st H now t Hin.
  - destruct Hin.
  - simpl in H. destruct (handle ev st) as [st1|] eqn:E; [| discriminate].
    destruct Hin as [->|Hin]; [| now apply (IH st1 H now t)].
    simpl in E. inversion E; subst; clear E.
    destruct (handle_all_step evs _ st' H) as (_ & [extra ->] & _).
    apply elem_of_app. left. simpl. apply elem_of_set_add. now right.
Qed.

Lemma accumulation_set_only_grows_witness :
  exists st',
    handle_all example_events (new_reporter example_objects) = Normal st' /\
    NoDup (tests st') /\ 3%nat ∈ tests st' /\ 4%nat ∈ tests st'.
Proof.
  destruct (handle_all example_events (new_reporter example_objects)) as [st'|] eqn:E;
    [| vm_compute in E; discriminate].
  destruct (accumulation_set_only_grows example_events
              (new_reporter example_objects) st' E) as (N & _ & M).
  - apply NoDup_nil_2.
  - exists st'. split; [reflexivity |]. split; [exact N |]. split.
    + apply (M example_date). simpl. tauto.
    + apply (M example_date). simpl. tauto.
Defined.

(** X2: over any run of events that no handler throws out of, the store
    keeps exactly its objects, and of each object the reporter leaves the
    type, the title, the parent, the pending flag and the attachments as
    they were, and never changes a state that was set. *)
Theorem reporter_keeps_what_it_does_not_own (evs : list Event) (st st' : Reporter) :
  handle_all evs st = Normal st' ->
  forall i,
    match objects st !! i, objects st' !! i with
    | Some x, Some y =>
        type y = type x /\ title y = title x /\ parent y = parent x /\
        isPending y = isPending x /\ attachments y = attachments x /\
        (truthy_str (state x) = true -> state y = state x)
    | None, None => True
    | _, _ => False
    end.
Proof.
  intros H. destruct (handle_all_step evs st st' H) as (_ & _ & S & _). exact S.
Qed.

Lemma reporter_keeps_what_it_does_not_own_witness :
  exists st' y,
    handle_all example_events (new_reporter example_objects) = Normal st' /\
    objects st' !! 3%nat = Some y /\ state y = Some "passed"%string /\
    title y = "T2"%string.
Proof.
  destruct (handle_all example_events (new_reporter example_objects)) as [st'|] eqn:E;
    [| vm_compute in E; discriminate].
  pose proof (reporter_keeps_what_it_does_not_own example_events
                (new_reporter example_objects) st' E 3%nat) as H.
  change (objects (new_reporter example_objects) !! 3%nat) with (Some example_T2) in H.
  destruct (objects st' !! 3%nat) as [y|] eqn:L; [| contradiction].
  destruct H as (_ & T & _ & _ & _ & S).
  exists st', y. split; [reflexivity |]. split; [exact L |].
  split; [now apply S | exact T].
Defined.

(** X3: from a fresh reporter, after any run of events that no handler
    throws out of, the marker is unset or names an object of the store whose
    type is [hook]: a failing test never becomes the marker. *)
Theorem marker_is_always_a_hook (evs : list Event) (objs : gmap nat Runnable)
    (st' : Reporter) :
  handle_all evs (new_reporter objs) = Normal st' ->
  forall h, failedHook st' = Some h ->
            exists x, objects st' !! h = Some x /\ type x = "hook"%string.
Proof.
  intros H. destruct (handle_all_step evs _ st' H) as (_ & _ & _ & M).
  apply M. intros h Hh. discriminate.
Qed.

Lemma marker_is_always_a_hook_witness :
  exists st' x,
    handle_all [Fail 3%nat; Fail 1%nat; Fail 2%nat] (new_reporter example_objects)
      = Normal st' /\
    failedHook st' = Some 1%nat /\
    objects st' !! 1%nat = Some x /\ type x = "hook"%string.
Proof.
  destruct (handle_all [Fail 3%nat; Fail 1%nat; Fail 2%nat]
              (new_reporter example_objects)) as [st'|] eqn:E;
    [| vm_compute in E; discriminate].
  pose proof (marker_is_always_a_hook _ _ st' E 1%nat) as M.
  assert (F : failedHook st' = Some 1%nat)
    by (vm_compute in E; inversion E; reflexivity).
  destruct (M F) as (x & Hx & Ty).
  exists st', x. split; [reflexivity |]. split; [exact F |]. split; assumption.
Defined.




(** ** More on the ['end'] handler *)



Lemma resolved_path_falsy (env : Env) (ro : ReporterOptions) :
  truthy (resolved_path env ro) = false <->
  truthy (output ro) = false /\
  (MOCHA_REPORTER_FILE env = None \/ MOCHA_REPORTER_FILE env = Some EmptyString).
Proof.
  unfold resolved_path, js_or.
  destruct (truthy (output ro)) eqn:T.
  - split; [congruence | intros [? _]; discriminate].
  - destruct (MOCHA_REPORTER_FILE env) as [e|]; simpl.
    + destruct (String.eqb_spec e "") as [->|Hne]; simpl.
      * split; auto.
      * split; [discriminate |]. intros [_ [H|H]]; [discriminate | congruence].
    + split; auto.
Qed.

(** X6: an empty path counts as no path.  When the [output] option is falsy
    (absent, or the empty string) and the environment variable is unset or
    empty, the handler never touches the file system, whatever attachments
    the tests carry: it ends normally having written the serialized report
    to standard output, after the warning if there is one. *)
Theorem empty_path_means_standard_output (env : Env) (tests : list Runnable)
    (stats : Stats) (options : Options) (date : Date) (log0 : list Effect) :
  let ro := default no_reporterOptions (reporterOptions options) in
  is_Some (stats_start stats) -> is_Some (stats_end stats) ->
  truthy (output ro) = false ->
  MOCHA_REPORTER_FILE env = None \/ MOCHA_REPORTER_FILE env = Some EmptyString ->
  exists s,
    on_end env tests stats options date log0 = (Normal tt, Some s) /\
    log s = log0 ++ warning_part ro (excludedPendingCount s) ++
            [ToXml (toXml env (run s)); StdoutWrite (toXml env (run s))] /\
    List.filter is_fs (log s) = List.filter is_fs log0.
Proof.
  intros ro Hs He Ho Hm.
  assert (T : truthy (resolved_path env ro) = false)
    by (apply resolved_path_falsy; now split).
  assert (Hr : reaches_loop stats options).
  { split; [assumption |]. split; [assumption |]. now left. }
  destruct (on_end_run env tests stats options date log0 Hr)
    as (sd & ed & v & c & s & new & _ & _ & _ & _ & Tv & E & _ & _ & _ & N & Hc & Hl).
  fold ro in Tv, N, Hc, Hl. rewrite T in Tv.
  rewrite (N Tv) in Hl, Hc. simpl in Hl, Hc.
  unfold output_part in Hl, Hc. rewrite Tv in Hl, Hc. simpl in Hl, Hc.
  exists s. subst c. split; [exact E |]. split.
  - rewrite Hl. now rewrite <- app_assoc.
  - rewrite Hl, !List.filter_app.
    destruct (warning_part_plain ro (excludedPendingCount s)) as (_ & -> & _).
    simpl. now rewrite !app_nil_r.
Qed.

Lemma empty_path_means_standard_output_witness :
  exists s,
    on_end example_env_blank [example_A; example_B] example_stats
      (options_with (VStr "") VUndefined VUndefined) example_date []
      = (Normal tt, Some s) /\
    List.filter is_fs (log s) = [].
Proof.
  destruct (empty_path_means_standard_output example_env_blank
              [example_A; example_B] example_stats
              (options_with (VStr "") VUndefined VUndefined) example_date [])
    as (s & E & _ & F).
  - now exists example_date.
  - now exists example_date.
  - reflexivity.
  - now right.
  - exists s. split; [exact E | exact F].
Defined.

Lemma filter_split_length {A : Type} (f : A -> bool) (l : list A) :
  (List.length (List.filter (fun x => negb (f x)) l) +
   List.length (List.filter f l))%nat = List.length l.
Proof.
  induction l as [|x l IH]; simpl; [reflexivity |].
  destruct (f x); simpl; lia.
Qed.

(** X7: every accumulated test is accounted for once: the number of entries
    in the report plus the count of excluded tests is the number of
    accumulated tests, so no test is dropped without being counted and none
    is reported twice. *)
Theorem every_test_is_reported_or_counted (env : Env) (tests : list Runnable)
    (stats : Stats) (options : Options) (date : Date) (log0 : list Effect) :
  let ro := default no_reporterOptions (reporterOptions options) in
  reaches_loop stats options ->
  exists c s,
    on_end env tests stats options date log0 = (c, Some s) /\
    (List.length (results (run s)) + excludedPendingCount s)%nat = List.length tests.
Proof.
  intros ro Hr.
  destruct (on_end_run env tests stats options date log0 Hr)
    as (sd & ed & v & c & s & new & _ & _ & _ & _ & _ & E & R & C & _).
  fold ro in R, C.
  exists c, s. split; [exact E |]. rewrite R, C.
  rewrite results_with_results.
  rewrite <- (Forall2_length _ _ _ (entries_entry_of env _ v 0 tests)).
  apply filter_split_length.
Qed.

Lemma every_test_is_reported_or_counted_witness :
  exists c s,
    on_end example_env [example_A; example_P; example_B] example_stats
      (options_with (VStr "results/out.trx") (VBool true) VUndefined)
      example_date [] = (c, Some s) /\
    (List.length (results (run s)) + excludedPendingCount s)%nat = 3%nat.
Proof.
  destruct (every_test_is_reported_or_counted example_env
              [example_A; example_P; example_B] example_stats
              (options_with (VStr "results/out.trx") (VBool true) VUndefined)
              example_date [])
    as (c & s & E & L).
  - split; [now exists example_date |]. split; [now exists example_date |].
    right. now exists "results/out.trx"%string.
  - exists c, s. split; [exact E | exact L].
Defined.

Lemma entries_shape (env : Env) (ro : ReporterOptions) (filename : JsVal) (k : nat)
    (tests : list Runnable) :
  Forall2
    (fun t r =>
       let r0 := testToTrx env t (computerName env) (cwd env) ro in
       if truthy filename && has_attachments t
       then exists j, r = relocated env j (default [] (attachments t)) r0
       else r = r0)
    (List.filter (fun t => negb (excluded ro t)) tests)
    (entries env ro filename k tests).
Proof.
  revert k; induction tests as [|t ts IH]; intros k; simpl; [constructor |].
  destruct (excluded ro t); simpl; [apply IH |].
  destruct (truthy filename && has_attachments t) eqn:C; constructor;
    try apply IH; cbv zeta; rewrite C; eauto.
Qed.

(** X8: the handler changes an entry only to relocate attachments.  The
    entry of a test without attachments, and every entry when no output path
    is resolved, is exactly what [testToTrx] returned; otherwise the entry
    differs from it in the execution identifier, the relative results
    directory and the file list only, and both identifiers are set. *)
Theorem entries_change_only_by_relocation (env : Env) (tests : list Runnable)
    (stats : Stats) (options : Options) (date : Date) (log0 : list Effect) :
  let ro := default no_reporterOptions (reporterOptions options) in
  reaches_loop stats options ->
  exists filename c s,
    getFilename env ro = Normal filename /\
    on_end env tests stats options date log0 = (c, Some s) /\
    Forall2
      (fun t r =>
         let r0 := testToTrx env t (computerName env) (cwd env) ro in
         if truthy filename && has_attachments t
         then entry_of env ro t r /\
              is_Some (executionId r) /\ is_Some (relativeResultsDirectory r) /\
              resultFiles r =
                Some (default [] (resultFiles r0) ++
                      map (fun a => mkResultFile (base_name env a))
                          (default [] (attachments t)))
         else r = r0)
      (List.filter (fun t => negb (excluded ro t)) tests)
      (results (run s)).
Proof.
  intros ro Hr.
  destruct (on_end_run env tests stats options date log0 Hr)
    as (sd & ed & v & c & s & new & _ & _ & G & _ & _ & E & R & _).
  fold ro in G, R. exists v, c, s. split; [exact G |]. split; [exact E |].
  rewrite R, results_with_results.
  eapply Forall2_impl; [apply entries_shape |].
  intros t r H. cbv beta zeta in *.
  destruct (truthy v && has_attachments t); [| exact H].
  destruct H as [j ->]. split; [apply entry_of_relocated |].
  split; [eexists; reflexivity |]. split; [eexists; reflexivity | reflexivity].
Qed.

Lemma entries_change_only_by_relocation_witness :
  exists c s,
    on_end example_env [example_A; example_B] example_stats
      (options_with (VStr "results/out.trx") VUndefined VUndefined) example_date []
      = (c, Some s) /\
    map resultFiles (results (run s)) = [Some [mkResultFile "a.png"]; None] /\
    map executionId (results (run s)) = [Some "uuid-0"%string; None] /\
    map testName (results (run s)) = ["A"; "B"]%string.
Proof.
  destruct (entries_change_only_by_relocation example_env [example_A; example_B]
              example_stats
              (options_with (VStr "results/out.trx") VUndefined VUndefined)
              example_date [])
    as (v & c & s & G & E & F).
  - split; [now exists example_date |]. split; [now exists example_date |].
    right. now exists "results/out.trx"%string.
  - exists c, s. split; [exact E |].
    pose proof E as E'. vm_compute in E'. inversion E'. repeat split.
Defined.

Lemma forEach_uuids (env : Env) (ro : ReporterOptions) (filename : JsVal)
    (tests : list Runnable) (s : RunState) :
  string_or_falsy filename ->
  uuids (snd (forEach (each_result env ro filename) tests s)) =
    (uuids s + List.length (List.filter (needs_id env ro filename) tests))%nat.
Proof.
  intros Hv. revert s; induction tests as [|t ts IH]; intros s.
  - simpl. lia.
  - cbn [forEach List.filter]. unfold bind, needs_id at 1.
    destruct (excluded ro t) eqn:Hx.
    + rewrite each_result_excluded by assumption. rewrite IH. simpl. lia.
    + destruct (truthy filename && has_attachments t) eqn:Hr.
      * destruct Hv as [Hv|[f ->]]; [now rewrite Hv in Hr |].
        destruct (each_result_relocating env ro f t s Hx Hr) as (n1 & E1 & _).
        cbv zeta in E1. rewrite E1, IH. cbn [negb andb uuids].
        unfold draws.
        destruct (truthy_str (executionId _)); simpl; lia.
      * rewrite each_result_plain by assumption. rewrite IH. simpl. lia.
Qed.

Lemma on_end_uuids (env : Env) (tests : list Runnable) (stats : Stats)
    (options : Options) (date : Date) (log0 : list Effect) (filename : JsVal)
    (c : Completion unit) (s : RunState) :
  let ro := default no_reporterOptions (reporterOptions options) in
  string_or_falsy filename ->
  getFilename env ro = Normal filename ->
  on_end env tests stats options date log0 = (c, Some s) ->
  uuids s = List.length (List.filter (needs_id env ro filename) tests).
Proof.
  intros ro Hv G E. unfold on_end in E.
  destruct (stats_start stats) as [sd|]; [| discriminate].
  destruct (stats_end stats) as [ed|]; [| discriminate].
  fold ro in E. rewrite G in E.
  set (s0 := mkRunState (new_TestRun env (toISOString date) sd ed) O log0 O) in E.
  pose proof (forEach_uuids env ro filename tests s0 Hv) as U.
  destruct (forEach_each_result_run env ro filename tests s0 Hv)
    as (s1 & new & E1 & _).
  rewrite E1 in U. simpl in U.
  unfold bind at 1 in E. rewrite E1 in E. unfold bind at 1 in E.
  rewrite warn_excluded_run, write_output_run in E by assumption.
  inversion E; subst. simpl. exact U.
Qed.

Lemma entries_generated_ids (env : Env) (ro : ReporterOptions) (filename : JsVal)
    (k : nat) (tests : list Runnable) :
  map (fun p => executionId (snd p))
    (List.filter (fun p => needs_id env ro filename (fst p))
       (combine (List.filter (fun t => negb (excluded ro t)) tests)
                (entries env ro filename k tests)))
  = map (fun j => Some (uuid_v4 env j))
      (seq k (List.length (List.filter (needs_id env ro filename) tests))).
Proof.
  revert k; induction tests as [|t ts IH]; intros k; [reflexivity |].
  cbn [List.filter entries].
  assert (Hn : needs_id env ro filename t =
               negb (excluded ro t) && (truthy filename && has_attachments t) &&
               negb (truthy_str (executionId
                       (testToTrx env t (computerName env) (cwd env) ro))))
    by reflexivity.
  destruct (excluded ro t) eqn:Hx; cbn [negb andb] in *.
  { rewrite Hn. apply IH. }
  destruct (truthy filename && has_attachments t) eqn:Hr; cbn [andb] in Hn.
  - cbn [combine List.filter fst]. rewrite Hn. unfold draws.
    destruct (truthy_str (executionId (testToTrx env t (computerName env) (cwd env) ro)))
      eqn:T; cbn [negb].
    + rewrite Nat.add_0_r. apply IH.
    + cbn [map snd List.length seq]. rewrite Nat.add_1_r, IH. f_equal.
      unfold relocated, chosen_id. cbn [executionId]. unfold truthy_str in T.
      destruct (executionId (testToTrx env t (computerName env) (cwd env) ro)) as [i|];
        [| reflexivity].
      destruct (String.eqb i ""); [reflexivity | discriminate].
  - cbn [combine List.filter fst]. rewrite Hn. apply IH.
Qed.

(** X9: identifiers are drawn one per test that needs one, in the order of
    the tests: the entries of the tests that are not excluded, have their
    attachments relocated and come without an identifier carry, in order,
    the first, second, ... identifier [uuid.v4()] delivered, and no more are
    drawn; so with a generator that never repeats itself no two of these
    entries share an identifier. *)
Theorem identifiers_are_drawn_in_order (env : Env) (tests : list Runnable)
    (stats : Stats) (options : Options) (date : Date) (log0 : list Effect) :
  let ro := default no_reporterOptions (reporterOptions options) in
  reaches_loop stats options ->
  exists filename c s,
    getFilename env ro = Normal filename /\
    on_end env tests stats options date log0 = (c, Some s) /\
    let n := List.length (List.filter (needs_id env ro filename) tests) in
    let ids :=
      map (fun p => executionId (snd p))
        (List.filter (fun p => needs_id env ro filename (fst p))
           (combine (List.filter (fun t => negb (excluded ro t)) tests)
                    (results (run s)))) in
    ids = map (fun j => Some (uuid_v4 env j)) (seq 0 n) /\
    uuids s = n /\
    ((forall i j, uuid_v4 env i = uuid_v4 env j -> i = j) -> NoDup ids).
Proof.
  intros ro Hr.
  destruct (on_end_run env tests stats options date log0 Hr)
    as (sd & ed & v & c & s & new & _ & _ & G & Hv & _ & E & R & _).
  fold ro in G, R. exists v, c, s. split; [exact G |]. split; [exact E |].
  cbv zeta. rewrite R, results_with_results, entries_generated_ids.
  split; [reflexivity |]. split; [now apply (on_end_uuids env tests stats options date log0 v c) |].
  intros Hinj. apply NoDup_fmap_2; [| apply NoDup_ListNoDup, List.seq_NoDup].
  intros i j H. inversion H. now apply Hinj.
Qed.

Lemma identifiers_are_drawn_in_order_witness :
  exists c s,
    on_end example_env [example_A; example_P; example_B] example_stats
      (options_with (VStr "results/out.trx") VUndefined VUndefined)
      example_date [] = (c, Some s) /\
    uuids s = 2%nat /\
    map executionId (results (run s)) =
      [Some "uuid-0"; Some "uuid-1"; None]%string.
Proof.
  destruct (identifiers_are_drawn_in_order example_env
              [example_A; example_P; example_B] example_stats
              (options_with (VStr "results/out.trx") VUndefined VUndefined)
              example_date [])
    as (v & c & s & G & E & I & U & _).
  - split; [now exists example_date |]. split; [now exists example_date |].
    right. now exists "results/out.trx"%string.
  - vm_compute in G. inversion G; subst v; clear G.
    exists c, s. split; [exact E |]. split; [exact U |].
    pose proof E as E'. vm_compute in E'. inversion E'. reflexivity.
Defined.

Lemma Forall2_In_left {A B : Type} (P : A -> B -> Prop) (l : list A) (k : list B)
    (a : A) :
  Forall2 P l k -> In a l -> exists b, In b k /\ P a b.
Proof.
  induction 1 as [|x y l k Hxy _ IH]; intros Hin; [destruct Hin |].
  destruct Hin as [->|Hin].
  - exists y. split; [now left | assumption].
  - destruct (IH Hin) as (b & Hb & Pb). exists b. split; [now right | assumption].
Qed.

(** X10: a test left unresolved by a failed hook reaches the report.  After
    the end of the hook's scope, the test carries the synthetic error, and
    the ['end'] handler run on the reporter's accumulation set adds an entry
    built from the test as the scope end left it, unless the test is pending
    and pending tests are excluded. *)
Theorem unexecuted_test_reaches_the_report (env : Env) (suite : Suite)
    (st : Reporter) (hook : nat) (h : Runnable) (e : Err) (t : nat) (x : Runnable)
    (stats : Stats) (options : Options) (date : Date) (log0 : list Effect) :
  let ro := default no_reporterOptions (reporterOptions options) in
  failedHook st = Some hook ->
  objects st !! hook = Some h ->
  parent h = suite_id suite ->
  err h = Some e ->
  t ∈ eachTest suite ->
  objects st !! t = Some x ->
  isPending x || negb (truthy_str (state x)) = true ->
  excluded ro x = false ->
  reaches_loop stats options ->
  exists st' x' c s r,
    on_suite_end suite st = Normal st' /\
    objects st' !! t = Some x' /\
    err x' = Some (mkErr ("Not executed due to " +:+ title h +:+ " on " +:+
                          DQ +:+ fullTitle suite +:+ DQ) (stack e)) /\
    state x' = (if truthy_str (state x) then state x else Some "failed"%string) /\
    end_of_run env st' stats options date log0 = (c, Some s) /\
    In r (results (run s)) /\
    entry_of env ro x' r.
Proof.
  intros ro Hf Hh Hp He Hin Hx Hu Hex Hr.
  set (x' := not_executed (not_executed_message (title h) (fullTitle suite))
                          (stack e) x).
  destruct (each_test_spec hook suite (title h) (stack e) (eachTest suite) st)
    as (st1 & E1 & _ & O1 & T1 & _).
  { now exists h, e. }
  assert (E : on_suite_end suite st = Normal (mkReporter (objects st1) (tests st1) None)).
  { unfold on_suite_end. now rewrite Hf, Hh, Hp, Nat.eqb_refl, E1. }
  set (st' := mkReporter (objects st1) (tests st1) None) in *.
  assert (Hx' : objects st' !! t = Some x').
  { simpl. rewrite O1, decide_True, Hx by assumption. simpl.
    unfold settle, unresolved. now rewrite Hu. }
  assert (Ht : t ∈ tests st').
  { simpl. apply T1. right. split; [assumption |]. exists x. now split. }
  assert (Hv : In x' (tests_values st')).
  { apply list_elem_of_In. unfold tests_values. apply list_elem_of_omap.
    exists t. now split. }
  destruct (on_end_run env (tests_values st') stats options date log0 Hr)
    as (sd & ed & v & c & s & new & _ & _ & _ & _ & _ & Ee & R & _).
  fold ro in R.
  assert (Hk : In x' (List.filter (fun u => negb (excluded ro u)) (tests_values st'))).
  { apply filter_In. split; [assumption |].
    unfold excluded in *. unfold x', not_executed. simpl. now rewrite Hex. }
  destruct (Forall2_In_left _ _ _ x' (entries_entry_of env ro v 0 (tests_values st')) Hk)
    as (r & Hr' & Pr).
  exists st', x', c, s, r. split; [exact E |]. split; [exact Hx' |].
  split; [reflexivity |]. split; [reflexivity |]. split; [exact Ee |].
  split; [| exact Pr]. now rewrite R, results_with_results.
Qed.

Lemma unexecuted_test_reaches_the_report_witness :
  exists st' x' c s r,
    on_suite_end example_suite example_reporter = Normal st' /\
    objects st' !! 2%nat = Some x' /\
    err x' = Some (mkErr ("Not executed due to before each hook on " +:+
                          DQ +:+ "Suite X" +:+ DQ)
                         (Some "Error: boom at Context.beforeEach"%string)) /\
    end_of_run example_env st' example_stats
      (options_with VUndefined VUndefined VUndefined) example_date []
      = (c, Some s) /\
    In r (results (run s)) /\
    testName r = "T1"%string /\ outcome r = "failed"%string /\
    errorMessage r =
      Some ("Not executed due to before each hook on " +:+ DQ +:+ "Suite X" +:+ DQ).
Proof.
  destruct (unexecuted_test_reaches_the_report example_env example_suite
              example_reporter 1%nat example_hook example_hook_err 2%nat example_T1
              example_stats (options_with VUndefined VUndefined VUndefined)
              example_date [] eq_refl eq_refl eq_refl eq_refl)
    as (st' & x' & c & s & r & E & O & X & S & F & I & P).
  - simpl. rewrite !elem_of_cons. tauto.
  - reflexivity.
  - reflexivity.
  - reflexivity.
  - split; [now exists example_date |]. split; [now exists example_date |]. now left.
  - exists st', x', c, s, r. split; [exact E |]. split; [exact O |].
    split; [exact X |]. split; [exact F |]. split; [exact I |].
    assert (Hx : x' = mkRunnable "test" "T1" 7 (Some "failed"%string) false
                        (Some (mkErr ("Not executed due to before each hook on " +:+
                                      DQ +:+ "Suite X" +:+ DQ)
                                     (Some "Error: boom at Context.beforeEach"%string)))
                        None None None).
    { pose proof E as E'. vm_compute in E'. inversion E'; subst st'; clear E'.
      vm_compute in O. now inversion O. }
    subst x'. destruct P as (N & Out & _ & M). split; [exact N |].
    split; [exact Out | exact M].
Defined.

(** ** The report header for any date *)

Lemma digit_is_digit (n : nat) : is_digit (digit n) = true.
Proof.
  unfold is_digit, digit.
  assert (H : (n mod 10 < 10)%nat) by (apply Nat.mod_upper_bound; lia).
  rewrite nat_ascii_embedding by lia.
  apply andb_true_iff. split; apply Nat.leb_le; lia.
Qed.

Lemma string_forall_append (p : ascii -> bool) (a b : string) :
  string_forall p (a +:+ b) = string_forall p a && string_forall p b.
Proof.
  induction a as [|x a IH]; simpl; [reflexivity |]. now rewrite IH, andb_assoc.
Qed.

Lemma decimal_all_digits (n : nat) : string_forall is_digit (decimal n) = true.
Proof.
  induction n as [n IH] using lt_wf_ind.
  rewrite decimal_step. destruct (Nat.ltb_spec n 10) as [|H10].
  - cbn [string_forall]. now rewrite digit_is_digit.
  - rewrite string_forall_append. cbn [string_forall].
    rewrite digit_is_digit, andb_true_r.
    apply IH. apply Nat.div_lt; lia.
Qed.

Lemma zeros_all_digits (k : nat) :
  string_forall is_digit (String.concat "" (repeat "0"%string k)) = true.
Proof.
  induction k as [|k IH]; [reflexivity |].
  cbn [repeat]. destruct (repeat "0"%string k) as [|z zs] eqn:R; [reflexivity |].
  change (String.concat "" ("0"%string :: z :: zs))
    with ("0" +:+ "" +:+ String.concat "" (z :: zs)).
  now rewrite !string_forall_append, IH.
Qed.

Lemma pad_all_digits (w n : nat) : string_forall is_digit (pad w n) = true.
Proof.
  unfold pad. now rewrite string_forall_append, decimal_all_digits, zeros_all_digits.
Qed.

Lemma all_digits_free_of (c : ascii) (s : string) :
  is_digit c = false -> string_forall is_digit s = true -> free_of c s = true.
Proof.
  intros Hc H. unfold free_of. induction s as [|x s IH]; [reflexivity |].
  cbn [string_forall] in *.
  apply andb_true_iff in H as [Hx Hs].
  now rewrite (digit_not c x Hc Hx), IH.
Qed.

Lemma iso_year_free_of (c : ascii) (y : Z) :
  is_digit c = false -> Ascii.eqb "-" c = false -> Ascii.eqb "+" c = false ->
  free_of c (iso_year y) = true.
Proof.
  intros Hc Hm Hp. unfold iso_year.
  destruct ((0 <=? y) && (y <=? 9999)).
  - apply all_digits_free_of; [assumption | apply pad_all_digits].
  - rewrite free_of_append, (all_digits_free_of c (pad 6 _) Hc (pad_all_digits _ _)).
    destruct (y <? 0); rewrite free_of_single; [now rewrite Hm | now rewrite Hp].
Qed.

Lemma testRunName_any_date (env : Env) (d : Date) :
  testRunName env (toISOString d) =
    userName env +:+ "@" +:+ computerName env +:+ " " +:+
    iso_year (year d) +:+ "-" +:+ pad 2 (month d) +:+ "-" +:+ pad 2 (day d) +:+ " " +:+
    pad 2 (hours d) +:+ ":" +:+ pad 2 (minutes d) +:+ ":" +:+ pad 2 (seconds d).
Proof.
  set (dt := iso_year (year d) +:+ "-" +:+ pad 2 (month d) +:+ "-" +:+ pad 2 (day d)).
  set (tm := pad 2 (hours d) +:+ ":" +:+ pad 2 (minutes d) +:+ ":" +:+ pad 2 (seconds d)).
  assert (Hnow : toISOString d =
                 (dt +:+ "T" +:+ tm) +:+ "." +:+ pad 3 (milliseconds d) +:+ "Z").
  { unfold toISOString, dt, tm. now rewrite !append_assoc. }
  assert (Fdt : forall c, is_digit c = false -> Ascii.eqb "-" c = false ->
                          Ascii.eqb "+" c = false -> free_of c dt = true).
  { intros c Hc Hm Hp. unfold dt. rewrite !free_of_append.
    rewrite (iso_year_free_of c _ Hc Hm Hp).
    rewrite !(all_digits_free_of c (pad 2 _) Hc (pad_all_digits _ _)).
    rewrite !free_of_single, Hm. reflexivity. }
  assert (Ftm : forall c, is_digit c = false -> Ascii.eqb ":" c = false ->
                          free_of c tm = true).
  { intros c Hc Hm. unfold tm. rewrite !free_of_append.
    rewrite !(all_digits_free_of c (pad 2 _) Hc (pad_all_digits _ _)).
    rewrite !free_of_single, Hm. reflexivity. }
  assert (Fdot : free_of "." (dt +:+ "T" +:+ tm) = true).
  { rewrite !free_of_append, Fdt, Ftm by reflexivity. reflexivity. }
  unfold testRunName. rewrite Hnow. unfold indexOf.
  change ("." +:+ pad 3 (milliseconds d) +:+ "Z")
    with (String "." (pad 3 (milliseconds d) +:+ "Z")).
  rewrite (find_first_char "." _ _ Fdot), substring_prefix.
  change ("T" +:+ tm) with (String "T" tm).
  rewrite (replace_char "T" " " dt tm) by (apply Fdt; reflexivity).
  unfold dt, tm. now rewrite !append_assoc.
Qed.

(** X11: whenever the statistics carry both dates, whatever the clock and
    its year, the report document exists and its header is: as name the user
    name, an at sign, the host name, a blank, and the date and the time of
    the clock's ISO string separated by a blank, the fraction of the second
    and the [Z] left out (a year outside 0..9999 with its sign and six
    digits); as user the user name; as settings label [default]; as creation
    and queuing times the clock's ISO string, as start and finish times those
    of the statistics' dates. *)
Theorem report_header_for_any_date (env : Env) (tests : list Runnable)
    (stats : Stats) (options : Options) (date : Date) (log0 : list Effect)
    (sd ed : Date) :
  stats_start stats = Some sd ->
  stats_end stats = Some ed ->
  exists c s,
    on_end env tests stats options date log0 = (c, Some s) /\
    name (run s) =
      userName env +:+ "@" +:+ computerName env +:+ " " +:+
      iso_year (year date) +:+ "-" +:+ pad 2 (month date) +:+ "-" +:+
      pad 2 (day date) +:+ " " +:+
      pad 2 (hours date) +:+ ":" +:+ pad 2 (minutes date) +:+ ":" +:+
      pad 2 (seconds date) /\
    runUser (run s) = userName env /\
    settings_name (run s) = "default"%string /\
    times (run s) = mkTimes (toISOString date) (toISOString date)
                      (toISOString sd) (toISOString ed).
Proof.
  intros Hs He.
  set (ro := default no_reporterOptions (reporterOptions options)).
  destruct (string_or_falsy_dec (output ro)) as [Ho|Ho].
  - assert (Hr : reaches_loop stats options).
    { split; [now exists sd |]. split; [now exists ed | exact Ho]. }
    destruct (on_end_run env tests stats options date log0 Hr)
      as (sd' & ed' & v & c & s & new & Hs' & He' & _ & _ & _ & E & R & _).
    assert (sd' = sd) by congruence. assert (ed' = ed) by congruence. subst sd' ed'.
    exists c, s. split; [exact E |]. rewrite R.
    split; [apply testRunName_any_date |]. repeat split.
  - exists (Throw "TypeError: filePath.indexOf is not a function"),
           (mkRunState (new_TestRun env (toISOString date) sd ed) O log0 O).
    split.
    + unfold on_end. rewrite Hs, He. fold ro. now rewrite (not_string_or_falsy env ro Ho).
    + split; [apply testRunName_any_date |]. repeat split.
Qed.

Lemma report_header_for_any_date_witness :
  exists c s,
    on_end example_env [example_A] example_stats
      (options_with VUndefined VUndefined VUndefined)
      (mkDate 12026 1 2 3 4 5 6) [] = (c, Some s) /\
    name (run s) = "ci@build-host +012026-01-02 03:04:05"%string /\
    times (run s) = mkTimes "+012026-01-02T03:04:05.006Z" "+012026-01-02T03:04:05.006Z"
                      "2026-11-03T07:00:05.042Z" "2026-11-03T07:00:05.042Z".
Proof.
  destruct (report_header_for_any_date example_env [example_A] example_stats
              (options_with VUndefined VUndefined VUndefined)
              (mkDate 12026 1 2 3 4 5 6) [] example_date example_date
              eq_refl eq_refl)
    as (c & s & E & N & _ & _ & T).
  exists c, s. split; [exact E |]. split; [exact N | exact T].
Defined.

(** ** The base name of an attachment *)

Lemma split_free (c : ascii) (b : string) : free_of c b = true -> split c b = [b].
Proof.
  unfold free_of. induction b as [|x b IH]; intros H; [reflexivity |].
  cbn [string_forall] in H. apply andb_true_iff in H as [Hx Hb].
  apply negb_true_iff in Hx.
  cbn [split]. now rewrite Hx, (IH Hb).
Qed.

Lemma last_split_after (c : ascii) (pre s : string) :
  (2 <= List.length (split c s))%nat ->
  (2 <= List.length (split c (pre +:+ s)))%nat /\
  last (split c (pre +:+ s)) = last (split c s).
Proof.
  intros H. induction pre as [|x pre [IH1 IH2]]; [now split |].
  change (String x pre +:+ s) with (String x (pre +:+ s)). cbn [split].
  destruct (Ascii.eqb x c).
  - split; [simpl; lia |].
    destruct (split c (pre +:+ s)) as [|a l]; [simpl in IH1; lia |]. exact IH2.
  - destruct (split c (pre +:+ s)) as [|a [|a' l]]; simpl in IH1; try lia.
    split; [simpl; lia | exact IH2].
Qed.

(** X12: the name under which an attachment is copied and listed is the
    text after the last path separator of its path: the whole path when it
    holds no separator, the empty string when it ends with one; every path
    has such a name, so the callback never fails for want of one. *)
Theorem attachment_name_is_text_after_last_separator (env : Env) (pre b : string) :
  free_of (path_sep env) b = true ->
  attachment_name env (pre +:+ String (path_sep env) b) = Some b /\
  attachment_name env b = Some b /\
  forall a, is_Some (attachment_name env a).
Proof.
  intros F. unfold attachment_name, pop.
  assert (Hb : split (path_sep env) b = [b]) by now apply split_free.
  split; [| split].
  - destruct (last_split_after (path_sep env) pre (String (path_sep env) b)) as [_ ->].
    + cbn [split]. rewrite Ascii.eqb_refl, Hb. simpl. lia.
    + cbn [split]. now rewrite Ascii.eqb_refl, Hb.
  - now rewrite Hb.
  - intros a. fold (pop (split (path_sep env) a)). fold (attachment_name env a).
    rewrite attachment_name_Some. now eexists.
Qed.

Lemma attachment_name_is_text_after_last_separator_witness :
  attachment_name example_env "/tmp/shots/a.png" = Some "a.png"%string /\
  attachment_name example_env "/tmp/shots/" = Some EmptyString /\
  attachment_name example_env "a.png" = Some "a.png"%string.
Proof.
  destruct (attachment_name_is_text_after_last_separator example_env "/tmp/shots"
              "a.png" eq_refl) as (H1 & H3 & _).
  destruct (attachment_name_is_text_after_last_separator example_env "/tmp/shots"
              "" eq_refl) as (H2 & _).
  split; [exact H1 |]. split; [exact H2 | exact H3].
Defined.

(** ** The clock of a test *)

(** X13: after the ['test'] and the ['test end'] event of a test, the test
    carries the clock of the first as its start and the clock of the second
    as its end, with every other field as it was; it is in the accumulation
    set; no other object and not the marker has changed. *)
Theorem test_events_record_the_clock (st : Reporter) (t : nat) (x : Runnable)
    (d1 d2 : Date) :
  objects st !! t = Some x ->
  exists st',
    handle_all [TestStart d1 t; TestEnd d2 t] st = Normal st' /\
    objects st' !! t =
      Some (mkRunnable (type x) (title x) (parent x) (state x) (isPending x) (err x)
              (Some d1) (Some d2) (attachments x)) /\
    t ∈ tests st' /\
    failedHook st' = failedHook st /\
    forall u, u <> t -> objects st' !! u = objects st !! u.
Proof.
  intros Hx. eexists. split; [reflexivity |]. cbn [objects tests failedHook on_test_end on_test].
  split; [| split; [| split]].
  - rewrite !lookup_alter, !decide_True, Hx by reflexivity. reflexivity.
  - apply elem_of_set_add. now right.
  - reflexivity.
  - intros u Hu. now rewrite !lookup_alter_ne by congruence.
Qed.

Lemma test_events_record_the_clock_witness :
  exists st' y,
    handle_all [TestStart example_date 2%nat; TestEnd (mkDate 2026 11 3 7 0 6 0) 2%nat]
      (new_reporter example_objects) = Normal st' /\
    objects st' !! 2%nat = Some y /\
    start y = Some example_date /\ end_ y = Some (mkDate 2026 11 3 7 0 6 0) /\
    tests st' = [2%nat].
Proof.
  destruct (test_events_record_the_clock (new_reporter example_objects) 2%nat
              example_T1 example_date (mkDate 2026 11 3 7 0 6 0) eq_refl)
    as (st' & E & O & _).
  exists st'. eexists. split; [exact E |]. split; [exact O |].
  split; [reflexivity |]. split; [reflexivity |].
  vm_compute in E. inversion E. reflexivity.
Defined.

(** ** The attachment directory for any output path *)

(** X14: the directory made for a test's attachments is
    [join(cwd, g, In, directory)] where [g] is the output path with its
    leftmost [.trx] removed, wherever that stands: a path that holds no
    [.trx] is kept whole, so the directory lies under the report path
    itself, and a path that holds [.trx] before its extension loses that
    occurrence and keeps the extension.  The working directory always comes
    first in the join. *)
Theorem attachment_directory_drops_first_trx (env : Env) (ro : ReporterOptions)
    (f : string) (t : Runnable) (s : RunState) (a : string) (atts : list string) :
  let r := testToTrx env t (computerName env) (cwd env) ro in
  let i := if truthy_str (executionId r) then default EmptyString (executionId r)
           else uuid_v4 env (uuids s) in
  let d := if truthy_str (relativeResultsDirectory r)
           then default EmptyString (relativeResultsDirectory r) else i in
  f <> EmptyString ->
  excluded ro t = false ->
  attachments t = Some (a :: atts) ->
  exists g new copies,
    fst (each_result env ro (VStr f) t s) = Normal tt /\
    log (snd (each_result env ro (VStr f) t s)) = log s ++ new /\
    List.filter is_fs new =
      MkdirSync (path_join env [cwd env; g; "In"%string; d]) true :: copies /\
    ((forall pre post, f <> pre +:+ ".trx" +:+ post) -> g = f) /\
    (forall pre post,
       f = pre +:+ ".trx" +:+ post ->
       (forall pre' post', f = pre' +:+ ".trx" +:+ post' ->
                           (String.length pre <= String.length pre')%nat) ->
       g = pre +:+ post).
Proof.
  intros r i d Hf Hx Ha.
  assert (Hr : truthy (VStr f) && has_attachments t = true).
  { unfold has_attachments. rewrite Ha. simpl.
    destruct (String.eqb_spec f ""); [contradiction | reflexivity]. }
  destruct (each_result_relocating env ro f t s Hx Hr) as (new & E & L).
  cbv zeta in E, L. fold r in E, L. rewrite Ha in E, L. simpl in E, L.
  assert (Hi : chosen_id env (uuids s) r = i).
  { unfold chosen_id, i, truthy_str.
    destruct (executionId r) as [x|]; [| reflexivity].
    now destruct (String.eqb x ""). }
  assert (Hd : chosen_dir env (uuids s) r = d).
  { unfold chosen_dir, d, or_str, truthy_str. rewrite Hi.
    destruct (relativeResultsDirectory r) as [x|]; [| reflexivity].
    now destruct (String.eqb x ""). }
  exists (replace ".trx" "" f), new. eexists.
  rewrite E. split; [reflexivity |]. split; [reflexivity |]. split.
  - destruct L as (F & _). rewrite F. unfold relocation_calls, attachment_dir.
    rewrite Hd, or_str_self. reflexivity.
  - split.
    + intros Hn. destruct (find_first ".trx" f) as [k|] eqn:K.
      * destruct (find_first_replace ".trx" "" f k K) as (x & y & X & _).
        now destruct (Hn x y).
      * now apply find_first_None.
    + intros pre post -> Hmin.
      now rewrite (replace_first_occurrence ".trx" "" pre post Hmin).
Qed.

Lemma attachment_directory_drops_first_trx_witness :
  (exists new copies,
     log (snd (each_result example_env no_reporterOptions (VStr "results/out.xml")
                 example_A example_state)) = new /\
     List.filter is_fs new =
       MkdirSync "/work/results/out.xml/In/uuid-0" true :: copies) /\
  (exists new copies,
     log (snd (each_result example_env no_reporterOptions (VStr "a.trx.d/out.trx")
                 example_A example_state)) = new /\
     List.filter is_fs new =
       MkdirSync "/work/a.d/out.trx/In/uuid-0" true :: copies) /\
  (exists new copies,
     log (snd (each_result example_env no_reporterOptions (VStr "/srv/ci/out.trx")
                 example_A example_state)) = new /\
     List.filter is_fs new =
       MkdirSync "/work/srv/ci/out/In/uuid-0" true :: copies).
Proof.
  split; [| split].
  - destruct (attachment_directory_drops_first_trx example_env no_reporterOptions
                "results/out.xml" example_A example_state "/tmp/shots/a.png" [])
      as (g & new & copies & _ & L & F & G & _);
      [discriminate | reflexivity | reflexivity |].
    rewrite G in F.
    + exists new, copies. split; [exact L | exact F].
    + intros pre post H.
      assert (K : find_first ".trx" "results/out.xml" = None) by reflexivity.
      now destruct (proj1 (find_first_None _ _ K) pre post).
  - destruct (attachment_directory_drops_first_trx example_env no_reporterOptions
                "a.trx.d/out.trx" example_A example_state "/tmp/shots/a.png" [])
      as (g & new & copies & _ & L & F & _ & G);
      [discriminate | reflexivity | reflexivity |].
    rewrite (G "a" ".d/out.trx" eq_refl) in F.
    + exists new, copies. split; [exact L | exact F].
    + intros pre' post' H.
      assert (K : find_first ".trx" "a.trx.d/out.trx" = Some 1%nat) by reflexivity.
      exact (find_first_least _ _ _ K pre' post' H).
  - destruct (attachment_directory_drops_first_trx example_env no_reporterOptions
                "/srv/ci/out.trx" example_A example_state "/tmp/shots/a.png" [])
      as (g & new & copies & _ & L & F & _ & G);
      [discriminate | reflexivity | reflexivity |].
    rewrite (G "/srv/ci/out" "" eq_refl) in F.
    + exists new, copies. split; [exact L | exact F].
    + intros pre' post' H.
      assert (K : find_first ".trx" "/srv/ci/out.trx" = Some 11%nat) by reflexivity.
      exact (find_first_least _ _ _ K pre' post' H).
Defined.

(** ** The marker holds one hook *)

(** X15: the marker holds the hook that failed last.  When a second hook
    fails before the scope of the first has ended, the first is forgotten:
    the end of a scope that is not the parent of the second hook changes
    neither a test nor the accumulation set, and leaves the marker on the
    second hook. *)
Theorem later_hook_failure_replaces_the_marker (st : Reporter) (h1 h2 : nat)
    (x1 x2 : Runnable) (suite : Suite) :
  objects st !! h1 = Some x1 -> type x1 = "hook"%string ->
  objects st !! h2 = Some x2 -> type x2 = "hook"%string ->
  parent x2 <> suite_id suite ->
  handle_all [Fail h1; Fail h2; SuiteEnd suite] st =
    Normal (mkReporter (objects st) (tests st) (Some h2)).
Proof.
  intros H1 T1 H2 T2 Hp.
  assert (F1 : on_fail h1 st = mkReporter (objects st) (tests st) (Some h1)).
  { unfold on_fail. now rewrite H1, T1. }
  assert (F2 : on_fail h2 (on_fail h1 st) = mkReporter (objects st) (tests st) (Some h2)).
  { rewrite F1. unfold on_fail. cbn [objects tests]. now rewrite H2, T2. }
  cbn [handle_all handle]. rewrite F2. unfold on_suite_end.
  cbn [failedHook objects]. rewrite H2.
  destruct (Nat.eqb_spec (parent x2) (suite_id suite)); [contradiction | reflexivity].
Qed.

Lemma later_hook_failure_replaces_the_marker_witness :
  exists st',
    handle_all [Fail 1%nat; Fail 5%nat; SuiteEnd example_suite]
      (new_reporter (<[5%nat := mkRunnable "hook" "after all hook" 8
                                  (Some "failed"%string) false
                                  (Some example_hook_err) None None None]>
                       example_objects))
      = Normal st' /\
    failedHook st' = Some 5%nat /\ tests st' = [] /\
    objects st' !! 2%nat = Some example_T1.
Proof.
  eexists. split.
  - apply (later_hook_failure_replaces_the_marker _ 1%nat 5%nat example_hook
             (mkRunnable "hook" "after all hook" 8 (Some "failed"%string) false
                (Some example_hook_err) None None None));
      [reflexivity | reflexivity | reflexivity | reflexivity | simpl; lia].
  - split; [reflexivity |]. split; reflexivity.
Defined.
